(** * Data Proxy client-version resolution (getClientVersion.ts)

    A shallow embedding of
    [packages/client/src/runtime/core/engines/data-proxy/utils/getClientVersion.ts]
    and the properties of its version resolver.

    Representation of JavaScript data.
    - A JavaScript string is modelled by a [string]: the bytes of its UTF-8
      encoding, an unpaired surrogate code unit being written in the same
      three-byte form (generalised UTF-8).  The characters the program looks
      at (hyphen, dot, digits, the JSON punctuation) are ASCII, and an ASCII
      byte never occurs inside a multi-byte sequence, so splitting, regular
      expression tests and comparisons agree with their UTF-16 originals.
    - [undefined] where a string may be missing is [None].
    - A value produced by [JSON.parse] is a [value]; numbers keep their source
      text, since the program never inspects them.
    - The effects of the asynchronous function are explicit: a run yields the
      list of calls made to the [request] helper and either the value returned
      or the error thrown.  Diagnostics ([debug], [console.error]) are not
      part of the model. *)

From Stdlib Require Import Bool Ascii String List NArith Lia.
From Stdlib Require Import DecimalString.
Import ListNotations.

Open Scope list_scope.
Open Scope string_scope.

Set Warnings "-register-all".

(** ** JavaScript strings *)

Module JsString.

(** The double quote character (U+0022). *)
Definition dquote : ascii := ascii_of_nat 34.

(** [s.split(sep)] for a one-character separator: the pieces between the
    occurrences of [sep], all of them, in order.  The result is never
    empty. *)
Fixpoint split (sep : ascii) (s : string) : list string :=
  match s with
  | EmptyString => [EmptyString]
  | String c rest =>
      if Ascii.eqb c sep then EmptyString :: split sep rest
      else match split sep rest with
           | [] => [String c EmptyString]
           | piece :: pieces => String c piece :: pieces
           end
  end.

(** Does the character occur in the string ([s.includes(c)])? *)
Fixpoint includes (c : ascii) (s : string) : bool :=
  match s with
  | EmptyString => false
  | String d rest => Ascii.eqb d c || includes c rest
  end.

(** Template-literal conversion of a possibly missing string:
    [`${x}`] prints [undefined] for a missing [x]. *)
Definition toString (x : option string) : string :=
  match x with
  | Some s => s
  | None => "undefined"
  end.

(** Template-literal conversion of a non-negative integer. *)
Definition ofN (n : N) : string := NilZero.string_of_uint (N.to_uint n).

(** Truthiness of a possibly missing string: [undefined] and the empty
    string are falsy. *)
Definition truthy (x : option string) : bool :=
  match x with
  | Some s => negb (String.eqb s "")
  | None => false
  end.

(** Strict equality [x === lit] of a possibly missing string with a string
    literal. *)
Definition strictEq (x : option string) (lit : string) : bool :=
  match x with
  | Some s => String.eqb s lit
  | None => false
  end.

End JsString.

(** ** Regular expressions *)

Module RegExp.

(** The fragment of the regular-expression syntax that the source uses:
    character ranges, literal characters, sequencing, [*] and [+]. *)
Inductive regex : Type :=
| Void : regex                         (* matches nothing *)
| Eps : regex                          (* matches the empty string *)
| Range (lo hi : ascii) : regex        (* [lo-hi] *)
| Lit (c : ascii) : regex              (* an escaped or plain character *)
| Seq (r1 r2 : regex) : regex
| Alt (r1 r2 : regex) : regex
| Star (r : regex) : regex.

Definition Plus (r : regex) : regex := Seq r (Star r).

Definition in_range (lo hi c : ascii) : bool :=
  (N_of_ascii lo <=? N_of_ascii c)%N && (N_of_ascii c <=? N_of_ascii hi)%N.

Fixpoint nullable (r : regex) : bool :=
  match r with
  | Void => false
  | Eps => true
  | Range _ _ => false
  | Lit _ => false
  | Seq r1 r2 => nullable r1 && nullable r2
  | Alt r1 r2 => nullable r1 || nullable r2
  | Star _ => true
  end.

(** Derivative of a regular expression by one character. *)
Fixpoint deriv (c : ascii) (r : regex) : regex :=
  match r with
  | Void => Void
  | Eps => Void
  | Range lo hi => if in_range lo hi c then Eps else Void
  | Lit d => if Ascii.eqb d c then Eps else Void
  | Seq r1 r2 =>
      if nullable r1 then Alt (Seq (deriv c r1) r2) (deriv c r2)
      else Seq (deriv c r1) r2
  | Alt r1 r2 => Alt (deriv c r1) (deriv c r2)
  | Star r1 => Seq (deriv c r1) (Star r1)
  end.

(** Whole-string match: what [/^r$/.test(s)] computes (no flags, so [^]
    and [$] are the two ends of the input). *)
Fixpoint fullmatch (r : regex) (s : string) : bool :=
  match s with
  | EmptyString => nullable r
  | String c rest => fullmatch (deriv c r) rest
  end.

(** [re.test(x)]: the argument is converted to a string first. *)
Definition test (r : regex) (x : option string) : bool :=
  fullmatch r (JsString.toString x).

(** Declarative meaning of a regular expression. *)
Inductive matches : regex -> string -> Prop :=
| MEps : matches Eps ""
| MRange lo hi c : in_range lo hi c = true -> matches (Range lo hi) (String c "")
| MLit c : matches (Lit c) (String c "")
| MSeq r1 r2 s1 s2 : matches r1 s1 -> matches r2 s2 -> matches (Seq r1 r2) (s1 ++ s2)
| MAltL r1 r2 s : matches r1 s -> matches (Alt r1 r2) s
| MAltR r1 r2 s : matches r2 s -> matches (Alt r1 r2) s
| MStarNil r : matches (Star r) ""
| MStarCons r s1 s2 : matches r s1 -> matches (Star r) s2 -> matches (Star r) (s1 ++ s2).

End RegExp.

(** [const semverRegex = /^[1-9][0-9]*\.[0-9]+\.[0-9]+$/] *)
Definition semverRegex : RegExp.regex :=
  RegExp.Seq (RegExp.Range "1" "9")
    (RegExp.Seq (RegExp.Star (RegExp.Range "0" "9"))
       (RegExp.Seq (RegExp.Lit ".")
          (RegExp.Seq (RegExp.Plus (RegExp.Range "0" "9"))
             (RegExp.Seq (RegExp.Lit ".")
                (RegExp.Plus (RegExp.Range "0" "9")))))).

(** ** JSON values and [JSON.parse] *)

(** JavaScript values that the resolver can hold or return. *)
Inductive value : Type :=
| VUndefined : value
| VNull : value
| VBool (b : bool) : value
| VNumber (lexeme : string) : value
| VString (s : string) : value
| VArray (items : list value) : value
| VObject (fields : list (string * value)) : value.

Module JSON.

Inductive token : Type :=
| TLBrace | TRBrace | TLBracket | TRBracket | TColon | TComma
| TString (s : string)
| TNumber (lexeme : string)
| TTrue | TFalse | TNull.

(** *** Characters *)

Definition code (c : ascii) : N := N_of_ascii c.

Definition is_ws (c : ascii) : bool :=
  (code c =? 9)%N || (code c =? 10)%N || (code c =? 13)%N || (code c =? 32)%N.

Definition is_digit (c : ascii) : bool := RegExp.in_range "0" "9" c.

Definition is_digit19 (c : ascii) : bool := RegExp.in_range "1" "9" c.

Definition is_control (c : ascii) : bool := (code c <? 32)%N.

Definition hexval (c : ascii) : option N :=
  if is_digit c then Some (code c - 48)%N
  else if RegExp.in_range "a" "f" c then Some (code c - 87)%N
  else if RegExp.in_range "A" "F" c then Some (code c - 55)%N
  else None.

Definition hex4 (h1 h2 h3 h4 : ascii) : option N :=
  match hexval h1, hexval h2, hexval h3, hexval h4 with
  | Some a, Some b, Some c, Some d => Some (((a * 16 + b) * 16 + c) * 16 + d)%N
  | _, _, _, _ => None
  end.

(** The character denoted by a one-letter escape. *)
Definition escape (e : ascii) : option ascii :=
  if Ascii.eqb e JsString.dquote then Some JsString.dquote
  else if Ascii.eqb e "\" then Some "\"%char
  else if Ascii.eqb e "/" then Some "/"%char
  else if Ascii.eqb e "b" then Some (ascii_of_nat 8)
  else if Ascii.eqb e "f" then Some (ascii_of_nat 12)
  else if Ascii.eqb e "n" then Some (ascii_of_nat 10)
  else if Ascii.eqb e "r" then Some (ascii_of_nat 13)
  else if Ascii.eqb e "t" then Some (ascii_of_nat 9)
  else None.

(** *** Text produced by [\uXXXX] escapes *)

Definition byte (n : N) : string := String (ascii_of_N n) "".

(** (Generalised) UTF-8 encoding of a code point. *)
Definition utf8 (cp : N) : string :=
  if (cp <? 128)%N then byte cp
  else if (cp <? 2048)%N then
    byte (192 + cp / 64) ++ byte (128 + cp mod 64)
  else if (cp <? 65536)%N then
    byte (224 + cp / 4096) ++ byte (128 + (cp / 64) mod 64) ++ byte (128 + cp mod 64)
  else
    byte (240 + cp / 262144) ++ byte (128 + (cp / 4096) mod 64)
      ++ byte (128 + (cp / 64) mod 64) ++ byte (128 + cp mod 64).

Definition is_high_surrogate (cu : N) : bool := (55296 <=? cu)%N && (cu <=? 56319)%N.
Definition is_low_surrogate (cu : N) : bool := (56320 <=? cu)%N && (cu <=? 57343)%N.

(** Text of a high surrogate that was not followed by a low one. *)
Definition flush (pending : option N) : string :=
  match pending with
  | Some hi => utf8 hi
  | None => ""
  end.

(** One escaped code unit [cu] after an optional pending high surrogate:
    the text to append and the new pending high surrogate. *)
Definition codeUnit (pending : option N) (cu : N) : string * option N :=
  match pending with
  | Some hi =>
      if is_low_surrogate cu
      then (utf8 (65536 + (hi - 55296) * 1024 + (cu - 56320)), None)
      else if is_high_surrogate cu then (utf8 hi, Some cu)
      else (utf8 hi ++ utf8 cu, None)
  | None =>
      if is_high_surrogate cu then ("", Some cu) else (utf8 cu, None)
  end.

(** *** Numbers *)

Inductive numstate : Type :=
| NMinus      (* after the sign *)
| NZero       (* after a leading zero *)
| NInt        (* in the integer digits *)
| NDot        (* after the decimal point *)
| NFrac       (* in the fraction digits *)
| NExp        (* after e or E *)
| NExpSign    (* after the sign of the exponent *)
| NExpDigits. (* in the exponent digits *)

Definition is_e (c : ascii) : bool := Ascii.eqb c "e" || Ascii.eqb c "E".

Definition num_step (st : numstate) (c : ascii) : option numstate :=
  match st with
  | NMinus => if Ascii.eqb c "0" then Some NZero
              else if is_digit19 c then Some NInt else None
  | NZero => if Ascii.eqb c "." then Some NDot
             else if is_e c then Some NExp else None
  | NInt => if is_digit c then Some NInt
            else if Ascii.eqb c "." then Some NDot
            else if is_e c then Some NExp else None
  | NDot => if is_digit c then Some NFrac else None
  | NFrac => if is_digit c then Some NFrac
             else if is_e c then Some NExp else None
  | NExp => if Ascii.eqb c "+" || Ascii.eqb c "-" then Some NExpSign
            else if is_digit c then Some NExpDigits else None
  | NExpSign => if is_digit c then Some NExpDigits else None
  | NExpDigits => if is_digit c then Some NExpDigits else None
  end.

Definition accepting (st : numstate) : bool :=
  match st with
  | NZero | NInt | NFrac | NExpDigits => true
  | NMinus | NDot | NExp | NExpSign => false
  end.

(** *** Lexer *)

Inductive mode : Type :=
| MDefault
| MString (acc : string) (pending : option N)
| MNumber (st : numstate) (acc : string).

Definition emit (pre : list token) (rest : option (list token)) : option (list token) :=
  option_map (app pre) rest.

(** Tokens produced by leaving a mode at a character that does not
    continue it. *)
Definition leave (m : mode) : option (list token) :=
  match m with
  | MDefault => Some []
  | MString _ _ => None
  | MNumber st acc => if accepting st then Some [TNumber acc] else None
  end.

Definition continue (m : mode) (c : ascii) : option mode :=
  match m with
  | MNumber st acc =>
      option_map (fun st' => MNumber st' (acc ++ String c "")) (num_step st c)
  | _ => None
  end.

Fixpoint lex (m : mode) (s : string) {struct s} : option (list token) :=
  match s with
  | EmptyString => leave m
  | String c rest =>
      match m with
      | MString acc pending =>
          if Ascii.eqb c JsString.dquote then
            emit [TString (acc ++ flush pending)] (lex MDefault rest)
          else if Ascii.eqb c "\" then
            match rest with
            | EmptyString => None
            | String e rest1 =>
                if Ascii.eqb e "u" then
                  match rest1 with
                  | String h1 (String h2 (String h3 (String h4 rest2))) =>
                      match hex4 h1 h2 h3 h4 with
                      | Some cu =>
                          let '(out, pending') := codeUnit pending cu in
                          lex (MString (acc ++ out) pending') rest2
                      | None => None
                      end
                  | _ => None
                  end
                else
                  match escape e with
                  | Some b => lex (MString (acc ++ flush pending ++ String b "") None) rest1
                  | None => None
                  end
            end
          else if is_control c then None
          else lex (MString (acc ++ flush pending ++ String c "") None) rest
      | _ =>
          match continue m c with
          | Some m' => lex m' rest
          | None =>
              match leave m with
              | None => None
              | Some pre =>
                  emit pre
                    (if is_ws c then lex MDefault rest
                     else if Ascii.eqb c "{" then emit [TLBrace] (lex MDefault rest)
                     else if Ascii.eqb c "}" then emit [TRBrace] (lex MDefault rest)
                     else if Ascii.eqb c "[" then emit [TLBracket] (lex MDefault rest)
                     else if Ascii.eqb c "]" then emit [TRBracket] (lex MDefault rest)
                     else if Ascii.eqb c ":" then emit [TColon] (lex MDefault rest)
                     else if Ascii.eqb c "," then emit [TComma] (lex MDefault rest)
                     else if Ascii.eqb c JsString.dquote then lex (MString "" None) rest
                     else if Ascii.eqb c "-" then lex (MNumber NMinus "-") rest
                     else if Ascii.eqb c "0" then lex (MNumber NZero "0") rest
                     else if is_digit19 c then lex (MNumber NInt (String c "")) rest
                     else if Ascii.eqb c "t" then
                       match rest with
                       | String "r" (String "u" (String "e" rest1)) =>
                           emit [TTrue] (lex MDefault rest1)
                       | _ => None
                       end
                     else if Ascii.eqb c "f" then
                       match rest with
                       | String "a" (String "l" (String "s" (String "e" rest1))) =>
                           emit [TFalse] (lex MDefault rest1)
                       | _ => None
                       end
                     else if Ascii.eqb c "n" then
                       match rest with
                       | String "u" (String "l" (String "l" rest1)) =>
                           emit [TNull] (lex MDefault rest1)
                       | _ => None
                       end
                     else None)
              end
          end
      end
  end.

(** *** Parser: a stack of the containers under construction *)

Inductive frame : Type :=
| FArray (items : list value)                       (* items so far, last first *)
| FObject (fields : list (string * value))          (* members so far, last first *)
| FMember (fields : list (string * value)) (key : string). (* the value of [key] is awaited *)

Inductive expect : Type :=
| EValue          (* a value *)
| EValueOrClose   (* a value or the end of an empty array *)
| EKeyOrClose     (* a member name or the end of an empty object *)
| EKey            (* a member name *)
| EColon (key : string)
| ESeparator      (* a comma or the end of the innermost container *)
| EEnd (v : value). (* the whole text has been read as [v] *)

Definition pstate : Type := (list frame * expect)%type.

(** A value has been completed under the given stack. *)
Definition complete (v : value) (stack : list frame) : option pstate :=
  match stack with
  | [] => Some ([], EEnd v)
  | FArray items :: below => Some (FArray (v :: items) :: below, ESeparator)
  | FMember fields key :: below => Some (FObject ((key, v) :: fields) :: below, ESeparator)
  | FObject _ :: _ => None
  end.

Definition begin_value (t : token) (stack : list frame) : option pstate :=
  match t with
  | TLBracket => Some (FArray [] :: stack, EValueOrClose)
  | TLBrace => Some (FObject [] :: stack, EKeyOrClose)
  | TString s => complete (VString s) stack
  | TNumber n => complete (VNumber n) stack
  | TTrue => complete (VBool true) stack
  | TFalse => complete (VBool false) stack
  | TNull => complete VNull stack
  | TRBrace | TRBracket | TColon | TComma => None
  end.

Definition close_array (stack : list frame) : option pstate :=
  match stack with
  | FArray items :: below => complete (VArray (rev items)) below
  | _ => None
  end.

Definition close_object (stack : list frame) : option pstate :=
  match stack with
  | FObject fields :: below => complete (VObject (rev fields)) below
  | _ => None
  end.

Definition pstep (st : pstate) (t : token) : option pstate :=
  let '(stack, e) := st in
  match e with
  | EValue => begin_value t stack
  | EValueOrClose =>
      match t with
      | TRBracket => close_array stack
      | _ => begin_value t stack
      end
  | EKeyOrClose =>
      match t with
      | TString k => Some (stack, EColon k)
      | TRBrace => close_object stack
      | _ => None
      end
  | EKey =>
      match t with
      | TString k => Some (stack, EColon k)
      | _ => None
      end
  | EColon k =>
      match t, stack with
      | TColon, FObject fields :: below => Some (FMember fields k :: below, EValue)
      | _, _ => None
      end
  | ESeparator =>
      match t, stack with
      | TComma, FArray _ :: _ => Some (stack, EValue)
      | TComma, FObject _ :: _ => Some (stack, EKey)
      | TRBracket, _ => close_array stack
      | TRBrace, _ => close_object stack
      | _, _ => None
      end
  | EEnd _ => None
  end.

Fixpoint prun (st : pstate) (ts : list token) : option value :=
  match ts with
  | [] => match st with
          | ([], EEnd v) => Some v
          | _ => None
          end
  | t :: ts' =>
      match pstep st t with
      | Some st' => prun st' ts'
      | None => None
      end
  end.

(** [JSON.parse(text)]: [None] stands for the [SyntaxError] it throws. *)
Definition parse (text : string) : option value :=
  match lex MDefault text with
  | Some ts => prun ([], EValue) ts
  | None => None
  end.

(** The state of the parser never holds [undefined] as the finished
    value. *)
Definition finished_defined (st : pstate) : Prop :=
  match st with
  | (_, EEnd v) => v <> VUndefined
  | _ => True
  end.

End JSON.

(** ** URI encoding *)

Module URI.

Definition is_alnum (c : ascii) : bool :=
  RegExp.in_range "a" "z" c || RegExp.in_range "A" "Z" c || RegExp.in_range "0" "9" c.

(** Characters that [encodeURI] leaves as they are: letters, digits, the
    URI marks, the reserved characters and the number sign. *)
Definition unescaped (c : ascii) : bool :=
  is_alnum c || JsString.includes c ";/?:@&=+$,-_.!~*'()#".

Definition hexdigit (n : N) : ascii :=
  match String.get (N.to_nat n) "0123456789ABCDEF" with
  | Some d => d
  | None => "0"%char
  end.

(** [%XX] for one byte of the UTF-8 encoding. *)
Definition percent (c : ascii) : string :=
  String "%" (String (hexdigit (N_of_ascii c / 16)) (String (hexdigit (N_of_ascii c mod 16)) "")).

(** Does the text start with an unpaired surrogate (bytes ED A0..BF ..)? *)
Definition lone_surrogate (c : ascii) (rest : string) : bool :=
  (N_of_ascii c =? 237)%N &&
  match rest with
  | String d _ => (160 <=? N_of_ascii d)%N && (N_of_ascii d <=? 191)%N
  | EmptyString => false
  end.

(** [encodeURI(s)]: [None] stands for the [URIError] thrown on an unpaired
    surrogate. *)
Fixpoint encodeURI (s : string) : option string :=
  match s with
  | EmptyString => Some ""
  | String c rest =>
      if lone_surrogate c rest then None
      else option_map (append (if unescaped c then String c "" else percent c))
                      (encodeURI rest)
  end.

End URI.

(** ** Errors, effects and the environment of a call *)

(** The exceptions that can leave the resolver. *)
Inductive error : Type :=
| Error (message : string)            (* [new Error(message)] *)
| SyntaxError                         (* thrown by [JSON.parse] and rethrown *)
| TypeError                           (* reading a property of [null] *)
| URIError                            (* thrown by [encodeURI] *)
| NotImplementedYetError (message : string) (clientVersion : string).

(** [{ clientVersion }], the options object given to [request]. *)
Record RequestOptions : Type := { opt_clientVersion : string }.

(** One call [request(url, options)]. *)
Record Call : Type := { url : string; options : RequestOptions }.

(** What the resolver reads of the response object. *)
Record Response : Type := {
  status : N;
  statusText : string;
  text : string
}.

(** Modelled from the spec: the response object is built by the [request]
    helper of [./request], another file; its [ok] flag is the success of the
    response, which section 4.1 step 4d of the specification identifies with
    a 2xx status. *)
Definition ok (res : Response) : bool :=
  (200 <=? status res)%N && (status res <=? 299)%N.

(** What a call depends on besides its argument: the process environment,
    the [@prisma/engines-version] entry of the engines package manifest, and
    the answer of the [request] helper to a call. *)
Record World : Type := {
  process_env : string -> option string;
  engines_version : string;
  request : string -> RequestOptions -> Response
}.

(** [interface EngineConfig], of which only [clientVersion] is read. *)
Record EngineConfig : Type := { clientVersion : option string }.

(** A finished run of an asynchronous function: the calls made to [request],
    in order, and the value returned or the error thrown. *)
Record Run (A : Type) : Type := {
  calls : list Call;
  outcome : error + A
}.
Arguments calls {A} _.
Arguments outcome {A} _.

Definition ret {A} (a : A) : Run A := {| calls := []; outcome := inr a |}.

Definition throw {A} (e : error) : Run A := {| calls := []; outcome := inl e |}.

Definition bind {A B} (m : Run A) (k : A -> Run B) : Run B :=
  match outcome m with
  | inl e => {| calls := calls m; outcome := inl e |}
  | inr a => {| calls := (calls m ++ calls (k a))%list; outcome := outcome (k a) |}
  end.

Notation "x <- m ;; k" := (bind m (fun x => k))
  (at level 61, m at next level, right associativity).

(** [await request(url, options)] *)
Definition await_request (w : World) (u : string) (o : RequestOptions) : Run Response :=
  {| calls := [ {| url := u; options := o |} ]; outcome := inr (request w u o) |}.

(** ** The resolver *)

(** The member of an object of a given name, the last one if the name was
    written more than once in the JSON text. *)
Fixpoint lookup (key : string) (fields : list (string * value)) : option value :=
  match fields with
  | [] => None
  | (k, v) :: rest =>
      match lookup key rest with
      | Some v' => Some v'
      | None => if String.eqb k key then Some v else None
      end
  end.

(** [bodyAsJson['version']].  Reading a property of [null] or [undefined]
    throws; every other value is an object or is wrapped into one, and
    neither an array, a string, a number, a boolean nor the object prototype
    has a property of this name, so only the own members of an object
    count. *)
Definition getVersionProperty (v : value) : Run value :=
  match v with
  | VNull => throw TypeError
  | VUndefined => throw TypeError
  | VObject fields =>
      match lookup "version" fields with
      | Some x => ret x
      | None => ret VUndefined
      end
  | _ => ret VUndefined
  end.

(** [function prismaPkgURL(version)] *)
Definition prismaPkgURL (version : string) : Run string :=
  match URI.encodeURI ("https://unpkg.com/prisma@" ++ version ++ "/package.json") with
  | Some u => ret u
  | None => throw URIError
  end.

(** Array destructuring: the element at a position, if there is one. *)
Definition item (i : nat) (xs : list string) : option string := nth_error xs i.

(** Lines 50-73: what is made of the response of the registry. *)
Definition handleResponse (res : Response) : Run value :=
  if negb (ok res) then
    throw (Error ("Failed to fetch stable Prisma version, unpkg.com status "
                    ++ JsString.ofN (status res) ++ " " ++ statusText res
                    ++ ", response body: "
                    ++ (if JsString.truthy (Some (text res)) then text res
                        else "<empty body>")))
  else
    let bodyAsText := text res in
    match JSON.parse bodyAsText with
    | None => throw SyntaxError
    | Some bodyAsJson => getVersionProperty bodyAsJson
    end.

(** Lines 33-73, the fallback path after the test-mode check: the version is
    inferred from the engines version and confirmed with the registry. *)
Definition resolveFromEngine (w : World) (clientVersion : string) : Run value :=
  let engineVersion := engines_version w in
  match item 0 (JsString.split "-" engineVersion) with
  | None => throw TypeError
  | Some version =>
      let parts := JsString.split "." version in
      let major := item 0 parts in
      let minor := item 1 parts in
      let patch := item 2 parts in
      if JsString.strictEq major "4" && JsString.strictEq minor "17" then
        ret (VString "5.0.0")
      else
        pkgURL <- prismaPkgURL ("<=" ++ JsString.toString major ++ "."
                                  ++ JsString.toString minor ++ "."
                                  ++ JsString.toString patch) ;;
        res <- await_request w pkgURL {| opt_clientVersion := clientVersion |} ;;
        handleResponse res
  end.

(** The result of [const [version, suffix] = clientVersion.split('-')]. *)
Definition splitClientVersion (clientVersion : string) : option string * option string :=
  let parts := JsString.split "-" clientVersion in
  (item 0 parts, item 1 parts).

(** A possibly missing string as a value. *)
Definition ofOption (x : option string) : value :=
  match x with
  | Some s => VString s
  | None => VUndefined
  end.

Definition isSome {A} (x : option A) : bool :=
  match x with
  | Some _ => true
  | None => false
  end.

(** Lines 30-73, the body of the fallback path. *)
Definition fallbackPath (w : World) (clientVersion : string) : Run value :=
  if isSome (process_env w "TEST_DATA_PROXY") then ret (VString "0.0.0")
  else resolveFromEngine w clientVersion.

(** [async function _getClientVersion(config)] *)
Definition _getClientVersion (w : World) (config : EngineConfig) : Run value :=
  let clientVersion :=
    match clientVersion config with
    | Some v => v
    | None => "unknown"
    end in
  if JsString.truthy (process_env w "PRISMA_CLIENT_DATA_PROXY_CLIENT_VERSION") then
    ret (ofOption (process_env w "PRISMA_CLIENT_DATA_PROXY_CLIENT_VERSION"))
  else
    let '(version, suffix) := splitClientVersion clientVersion in
    if negb (isSome suffix) && RegExp.test semverRegex version then
      ret (ofOption version)
    else if isSome suffix || String.eqb clientVersion "0.0.0" then
      fallbackPath w clientVersion
    else
      throw (NotImplementedYetError
               "Only `major.minor.patch` versions are supported by Prisma Data Proxy."
               clientVersion).

(** [export async function getClientVersion(config)] *)
Definition getClientVersion (w : World) (config : EngineConfig) : Run value :=
  version <- _getClientVersion w config ;;
  ret version.

(** ** Vocabulary of the specification *)

(** A string of decimal digits (possibly empty). *)
Fixpoint all_digits (s : string) : bool :=
  match s with
  | EmptyString => true
  | String c rest => RegExp.in_range "0" "9" c && all_digits rest
  end.

(** Number of occurrences of a character in a string. *)
Fixpoint count (c : ascii) (s : string) : nat :=
  match s with
  | EmptyString => 0
  | String d rest => (if Ascii.eqb d c then 1 else 0) + count c rest
  end.

(** Text that [encodeURI] leaves as it is, character by character. *)
Fixpoint unescaped_text (s : string) : bool :=
  match s with
  | EmptyString => true
  | String c rest => URI.unescaped c && unescaped_text rest
  end.

(** The specification's error kinds.  [UnsupportedVersionFormat] is the
    [NotImplementedYetError] of the source, which carries the client version;
    [UpstreamFetchError] is either the [Error] built from a bad response or
    the [SyntaxError] of a body that does not parse. *)
Definition isUpstreamFetchError (e : error) : bool :=
  match e with
  | Error _ | SyntaxError => true
  | TypeError | URIError | NotImplementedYetError _ _ => false
  end.

(** Did the run end in an [UpstreamFetchError]? *)
Definition failsUpstream {A} (r : Run A) : bool :=
  match outcome r with
  | inl e => isUpstreamFetchError e
  | inr _ => false
  end.

(** Does a parsed payload have a [version] member? *)
Definition hasVersionField (v : value) : bool :=
  match v with
  | VObject fields => isSome (lookup "version" fields)
  | _ => false
  end.

(** ** Sample configurations *)

Module Sample.

Definition q : string := String JsString.dquote "".

(** The body [{"version":"4.18.0"}]. *)
Definition body_4_18_0 : string :=
  "{" ++ q ++ "version" ++ q ++ ":" ++ q ++ "4.18.0" ++ q ++ "}".

Definition respond (code : N) (reason body : string) : string -> RequestOptions -> Response :=
  fun _ _ => {| status := code; statusText := reason; text := body |}.

(** No variable is set. *)
Definition env_empty : string -> option string := fun _ => None.

(** Only the given variable is set. *)
Definition env_only (name val : string) : string -> option string :=
  fun k => if String.eqb k name then Some val else None.

Definition published : World :=
  {| process_env := env_empty; engines_version := "4.18.0";
     request := respond 200 "OK" body_4_18_0 |}.

Definition missing : World :=
  {| process_env := env_empty; engines_version := "4.18.0";
     request := respond 404 "Not Found" "not found" |}.

Definition answers_null : World :=
  {| process_env := env_empty; engines_version := "4.18.0";
     request := respond 200 "OK" "null" |}.

Definition answers_empty_object : World :=
  {| process_env := env_empty; engines_version := "4.18.0";
     request := respond 200 "OK" "{}" |}.

Definition forced (val : string) : World :=
  {| process_env := env_only "PRISMA_CLIENT_DATA_PROXY_CLIENT_VERSION" val;
     engines_version := "4.18.0";
     request := respond 200 "OK" body_4_18_0 |}.

Definition testing (engine : string) : World :=
  {| process_env := env_only "TEST_DATA_PROXY" "1";
     engines_version := engine;
     request := respond 200 "OK" body_4_18_0 |}.

Definition pinned : World :=
  {| process_env := env_empty; engines_version := "4.17.2";
     request := respond 200 "OK" body_4_18_0 |}.

Definition config (v : string) : EngineConfig := {| clientVersion := Some v |}.

End Sample.

(** ** Variations of a configuration *)

(** [config.clientVersion ?? 'unknown'] (line 13). *)
Definition defaulted (config : EngineConfig) : string :=
  match clientVersion config with
  | Some v => v
  | None => "unknown"
  end.

(** The same world with the forced-version variable removed from the
    environment. *)
Definition withoutOverride (w : World) : World :=
  {| process_env := fun name =>
       if String.eqb name "PRISMA_CLIENT_DATA_PROXY_CLIENT_VERSION" then None
       else process_env w name;
     engines_version := engines_version w;
     request := request w |}.

(** The same world with another engines version. *)
Definition withEngine (engine : string) (w : World) : World :=
  {| process_env := process_env w;
     engines_version := engine;
     request := request w |}.

(** ** Parsed payloads without [undefined] members *)

Definition members_defined (fields : list (string * value)) : Prop :=
  Forall (fun member => snd member <> VUndefined) fields.

(** A finished value: not [undefined] and, for an object, without
    [undefined] members. *)
Definition value_defined (v : value) : Prop :=
  v <> VUndefined /\
  match v with
  | VObject fields => members_defined fields
  | _ => True
  end.

Definition frame_defined (f : JSON.frame) : Prop :=
  match f with
  | JSON.FArray _ => True
  | JSON.FObject fields => members_defined fields
  | JSON.FMember fields _ => members_defined fields
  end.

Definition pstate_defined (st : JSON.pstate) : Prop :=
  Forall frame_defined (fst st) /\
  match snd st with
  | JSON.EEnd v => value_defined v
  | _ => True
  end.

(** * Properties *)

(** ** Strings and splitting *)

Section StringFacts.

Lemma append_nil_r (s : string) : s ++ "" = s.
Proof. induction s as [|c s IH]; simpl; [reflexivity | now rewrite IH]. Qed.

Lemma append_assoc (a b c : string) : (a ++ b) ++ c = a ++ (b ++ c).
Proof. induction a as [|x a IH]; simpl; [reflexivity | now rewrite IH]. Qed.

Lemma includes_app (c : ascii) (a b : string) :
  JsString.includes c (a ++ b) = JsString.includes c a || JsString.includes c b.
Proof.
  induction a as [|x a IH]; simpl; [reflexivity|].
  now rewrite IH, orb_assoc.
Qed.

Lemma split_nonempty (sep : ascii) (s : string) : JsString.split sep s <> [].
Proof.
  destruct s as [|c s]; simpl; [discriminate|].
  destruct (Ascii.eqb c sep); [discriminate|].
  destruct (JsString.split sep s); discriminate.
Qed.

Lemma split_head (sep : ascii) (s : string) :
  exists v rest, JsString.split sep s = v :: rest.
Proof.
  destruct (JsString.split sep s) as [|v rest] eqn:E.
  - now apply split_nonempty in E.
  - now exists v, rest.
Qed.

(** Without the separator there is a single piece, the string itself. *)
Lemma split_without (sep : ascii) (s : string) :
  JsString.includes sep s = false -> JsString.split sep s = [s].
Proof.
  induction s as [|c s IH]; simpl; intros H; [reflexivity|].
  apply orb_false_iff in H as [Hc Hs].
  rewrite Hc, (IH Hs). reflexivity.
Qed.

(** The first piece ends at the first separator. *)
Lemma split_at_first (sep : ascii) (a t : string) :
  JsString.includes sep a = false ->
  JsString.split sep (a ++ String sep t) = a :: JsString.split sep t.
Proof.
  induction a as [|c a IH]; simpl; intros H.
  - now rewrite Ascii.eqb_refl.
  - apply orb_false_iff in H as [Hc Ha].
    rewrite Hc, (IH Ha). reflexivity.
Qed.

(** A string that contains the separator is cut at its first occurrence. *)
Lemma includes_cut (sep : ascii) (s : string) :
  JsString.includes sep s = true ->
  exists a t, s = a ++ String sep t /\ JsString.includes sep a = false.
Proof.
  induction s as [|c s IH]; simpl; intros H; [discriminate|].
  destruct (Ascii.eqb c sep) eqn:E.
  - apply Ascii.eqb_eq in E. subst c. now exists "", s.
  - destruct (IH H) as (a & t & -> & Ha).
    exists (String c a), t. simpl. now rewrite E, Ha.
Qed.

Lemma count_includes (c : ascii) (s : string) :
  1 <= count c s -> JsString.includes c s = true.
Proof.
  induction s as [|d s IH]; simpl; intros H; [lia|].
  destruct (Ascii.eqb d c); [reflexivity|]. apply IH. exact H.
Qed.

Lemma count_app (c : ascii) (a b : string) : count c (a ++ b) = count c a + count c b.
Proof.
  induction a as [|d a IH]; simpl; [reflexivity|]. rewrite IH. lia.
Qed.

Lemma count_without (c : ascii) (s : string) :
  JsString.includes c s = false -> count c s = 0.
Proof.
  induction s as [|d s IH]; simpl; intros H; [reflexivity|].
  apply orb_false_iff in H as [Hd Hs]. now rewrite Hd, IH.
Qed.

(** A string with two occurrences of a character or more is cut at the
    first two. *)
Lemma count_two_cut (sep : ascii) (s : string) :
  2 <= count sep s ->
  exists a b c,
    s = a ++ String sep (b ++ String sep c)
    /\ JsString.includes sep a = false /\ JsString.includes sep b = false.
Proof.
  intros H.
  assert (H1 : JsString.includes sep s = true) by (apply count_includes; lia).
  apply includes_cut in H1 as (a & t & -> & Ha).
  rewrite count_app, (count_without _ _ Ha) in H. simpl in H.
  rewrite Ascii.eqb_refl in H.
  assert (H2 : JsString.includes sep t = true) by (apply count_includes; lia).
  apply includes_cut in H2 as (b & c & -> & Hb).
  now exists a, b, c.
Qed.

Lemma truthy_nonempty (v : string) : v <> "" -> JsString.truthy (Some v) = true.
Proof.
  intros H. simpl. apply negb_true_iff. now apply String.eqb_neq.
Qed.

End StringFacts.

(** ** The matcher against the declarative meaning of expressions *)

Section RegExpFacts.

Import RegExp.

Lemma nullable_matches (r : regex) : nullable r = true <-> matches r "".
Proof.
  split.
  - induction r; simpl; intros H; try discriminate.
    + constructor.
    + apply andb_true_iff in H as [H1 H2].
      change "" with ("" ++ ""). constructor; auto.
    + apply orb_true_iff in H as [H|H]; [apply MAltL | apply MAltR]; auto.
    + constructor.
  - intros H. remember "" as s eqn:Es.
    induction H; simpl; try discriminate; auto.
    + destruct s1; [|discriminate]. simpl in Es. subst s2.
      now rewrite IHmatches1, IHmatches2.
    + now rewrite IHmatches.
    + rewrite IHmatches by assumption. apply orb_true_r.
Qed.

(** A sequence that matches a non-empty string either starts it in the
    first part or matches it in the second after an empty first part. *)
Lemma matches_seq_cons (r1 r2 : regex) (c : ascii) (s : string) :
  matches (Seq r1 r2) (String c s) ->
  (exists s1 s2, s = s1 ++ s2 /\ matches r1 (String c s1) /\ matches r2 s2)
  \/ (matches r1 "" /\ matches r2 (String c s)).
Proof.
  intros H. remember (Seq r1 r2) as r eqn:Er. remember (String c s) as t eqn:Et.
  destruct H as [| | |q1 q2 s1 s2 H1 H2| | | |]; try discriminate.
  injection Er as -> ->.
  destruct s1 as [|d s1]; simpl in Et.
  - right. subst. auto.
  - left. injection Et as -> <-. now exists s1, s2.
Qed.

(** A repetition that matches a non-empty string starts with a non-empty
    round. *)
Lemma matches_star_cons (r : regex) (c : ascii) (s : string) :
  matches (Star r) (String c s) ->
  exists s1 s2, s = s1 ++ s2 /\ matches r (String c s1) /\ matches (Star r) s2.
Proof.
  intros H. remember (Star r) as r' eqn:Er. remember (String c s) as t eqn:Et.
  induction H; try discriminate.
  injection Er as ->.
  destruct s1 as [|d s1]; simpl in Et.
  - now apply IHmatches2.
  - injection Et as -> <-. now exists s1, s2.
Qed.

Lemma deriv_matches (r : regex) :
  forall c s, matches (deriv c r) s <-> matches r (String c s).
Proof.
  induction r as [| |lo hi|d|r1 IH1 r2 IH2|r1 IH1 r2 IH2|r IH]; intros c s; simpl.
  - split; intros H; inversion H.
  - split; intros H; inversion H.
  - destruct (in_range lo hi c) eqn:E; split; intros H; inversion H; subst.
    + now constructor.
    + constructor.
    + congruence.
  - destruct (Ascii.eqb_spec d c) as [->|N]; split; intros H; inversion H; subst.
    + constructor.
    + constructor.
    + contradiction.
  - destruct (nullable r1) eqn:En.
    + split; intros H.
      * inversion H as [| | | |? ? ? H'|? ? ? H'| |]; subst.
        -- inversion H' as [| | |? ? s1 s2 H1 H2 E| | | |]; subst.
           apply IH1 in H1.
           change (String c (s1 ++ s2)) with (String c s1 ++ s2).
           now constructor.
        -- apply IH2 in H'. change (String c s) with ("" ++ String c s).
           constructor; [now apply nullable_matches | assumption].
      * apply matches_seq_cons in H as [(s1 & s2 & -> & H1 & H2)|[_ H2]].
        -- apply MAltL. constructor; [now apply IH1 | assumption].
        -- apply MAltR. now apply IH2.
    + split; intros H.
      * inversion H as [| | |? ? s1 s2 H1 H2 E| | | |]; subst.
        apply IH1 in H1.
        change (String c (s1 ++ s2)) with (String c s1 ++ s2).
        now constructor.
      * apply matches_seq_cons in H as [(s1 & s2 & -> & H1 & H2)|[H1 _]].
        -- constructor; [now apply IH1 | assumption].
        -- apply nullable_matches in H1. congruence.
  - split; intros H; inversion H; subst.
    + apply MAltL. now apply IH1.
    + apply MAltR. now apply IH2.
    + apply MAltL. now apply IH1.
    + apply MAltR. now apply IH2.
  - split; intros H.
    + inversion H as [| | |? ? s1 s2 H1 H2 E| | | |]; subst.
      apply IH in H1.
      change (String c (s1 ++ s2)) with (String c s1 ++ s2).
      now constructor.
    + apply matches_star_cons in H as (s1 & s2 & -> & H1 & H2).
      constructor; [now apply IH | assumption].
Qed.

(** The matcher decides the declarative meaning. *)
Theorem fullmatch_matches (s : string) :
  forall r, fullmatch r s = true <-> matches r s.
Proof.
  induction s as [|c s IH]; intros r; simpl.
  - apply nullable_matches.
  - rewrite IH. apply deriv_matches.
Qed.

End RegExpFacts.

(** ** The shape of the versions accepted by [semverRegex] *)

Section SemverFacts.

Import RegExp.

Lemma matches_seq_inv (r1 r2 : regex) (s : string) :
  matches (Seq r1 r2) s ->
  exists s1 s2, s = s1 ++ s2 /\ matches r1 s1 /\ matches r2 s2.
Proof.
  intros H. inversion H; subst. eauto.
Qed.

Lemma matches_lit_inv (c : ascii) (s : string) :
  matches (Lit c) s -> s = String c "".
Proof. intros H. now inversion H. Qed.

Lemma matches_range_inv (lo hi : ascii) (s : string) :
  matches (Range lo hi) s -> exists c, s = String c "" /\ in_range lo hi c = true.
Proof. intros H. inversion H; subst. eauto. Qed.

Lemma star_digits (s : string) :
  matches (Star (Range "0" "9")) s <-> all_digits s = true.
Proof.
  split.
  - intros H. remember (Star (Range "0" "9")) as r eqn:Er.
    induction H; try discriminate; [reflexivity|].
    injection Er as ->.
    apply matches_range_inv in H as (c & -> & Hc). simpl.
    rewrite Hc. now apply IHmatches2.
  - induction s as [|c s IH]; simpl; intros H; [constructor|].
    apply andb_true_iff in H as [Hc Hs].
    change (String c s) with (String c "" ++ s).
    constructor; [now constructor | auto].
Qed.

Lemma plus_digits (s : string) :
  matches (Plus (Range "0" "9")) s <-> all_digits s = true /\ s <> "".
Proof.
  unfold Plus. split.
  - intros H. apply matches_seq_inv in H as (s1 & s2 & -> & H1 & H2).
    apply matches_range_inv in H1 as (c & -> & Hc).
    apply star_digits in H2. simpl. rewrite Hc, H2. split; [reflexivity | discriminate].
  - intros [H Hne]. destruct s as [|c s]; [contradiction|].
    simpl in H. apply andb_true_iff in H as [Hc Hs].
    change (String c s) with (String c "" ++ s).
    constructor; [now constructor | now apply star_digits].
Qed.

(** The accepted strings are exactly [major.minor.patch], where [major] is
    a numeral that starts with a digit from 1 to 9 and [minor] and [patch]
    are non-empty numerals. *)
Theorem semver_shape (s : string) :
  fullmatch semverRegex s = true <->
  exists d ds minor patch,
    s = String d ds ++ "." ++ minor ++ "." ++ patch
    /\ in_range "1" "9" d = true /\ all_digits ds = true
    /\ (all_digits minor = true /\ minor <> "")
    /\ (all_digits patch = true /\ patch <> "").
Proof.
  rewrite fullmatch_matches. unfold semverRegex. split.
  - intros H.
    apply matches_seq_inv in H as (s1 & t1 & -> & H1 & H).
    apply matches_seq_inv in H as (s2 & t2 & -> & H2 & H).
    apply matches_seq_inv in H as (s3 & t3 & -> & H3 & H).
    apply matches_seq_inv in H as (s4 & t4 & -> & H4 & H).
    apply matches_seq_inv in H as (s5 & t5 & -> & H5 & H6).
    apply matches_range_inv in H1 as (d & -> & Hd).
    apply matches_lit_inv in H3 as ->. apply matches_lit_inv in H5 as ->.
    apply star_digits in H2. apply plus_digits in H4. apply plus_digits in H6.
    exists d, s2, s4, t5. repeat split; tauto.
  - intros (d & ds & minor & patch & -> & Hd & Hds & Hminor & Hpatch).
    change (String d ds) with (String d "" ++ ds). rewrite append_assoc.
    constructor; [now constructor|].
    constructor; [now apply star_digits|].
    change ("." ++ minor ++ "." ++ patch) with (String "." "" ++ (minor ++ String "." "" ++ patch)).
    constructor; [constructor|].
    constructor; [now apply plus_digits|].
    constructor; [constructor | now apply plus_digits].
Qed.

Lemma digit_not_hyphen (c : ascii) :
  in_range "0" "9" c = true -> Ascii.eqb c "-" = false.
Proof.
  intros H. destruct (Ascii.eqb_spec c "-") as [->|]; [discriminate H | reflexivity].
Qed.

Lemma digits_no_hyphen (s : string) :
  all_digits s = true -> JsString.includes "-" s = false.
Proof.
  induction s as [|c s IH]; simpl; intros H; [reflexivity|].
  apply andb_true_iff in H as [Hc Hs].
  now rewrite (digit_not_hyphen c Hc), IH.
Qed.

(** An accepted version has no hyphen, hence no suffix. *)
Lemma semver_no_hyphen (s : string) :
  fullmatch semverRegex s = true -> JsString.includes "-" s = false.
Proof.
  intros H. apply semver_shape in H
    as (d & ds & minor & patch & -> & Hd & Hds & [Hminor _] & [Hpatch _]).
  assert (Hd' : Ascii.eqb d "-" = false).
  { destruct (Ascii.eqb_spec d "-") as [->|]; [discriminate Hd | reflexivity]. }
  simpl. rewrite Hd', includes_app, (digits_no_hyphen _ Hds). simpl.
  rewrite includes_app, (digits_no_hyphen _ Hminor). simpl.
  apply (digits_no_hyphen _ Hpatch).
Qed.

End SemverFacts.

(** ** [JSON.parse] and [encodeURI] *)

Section ParserFacts.

Import JSON.

Lemma complete_defined (v : value) (stack : list frame) (st : pstate) :
  v <> VUndefined -> complete v stack = Some st -> finished_defined st.
Proof.
  intros Hv H. destruct stack as [|[items|fields|fields key] below];
    simpl in H; try discriminate; injection H as <-; simpl; auto.
Qed.

Lemma begin_value_defined (t : token) (stack : list frame) (st : pstate) :
  begin_value t stack = Some st -> finished_defined st.
Proof.
  destruct t; simpl; intros H; try discriminate;
    try (injection H as <-; exact I);
    (eapply complete_defined; [|exact H]; discriminate).
Qed.

Lemma close_defined (stack : list frame) (st : pstate) :
  close_array stack = Some st \/ close_object stack = Some st ->
  finished_defined st.
Proof.
  intros [H|H]; destruct stack as [|[items|fields|fields key] below];
    simpl in H; try discriminate;
    (eapply complete_defined; [|exact H]; discriminate).
Qed.

Lemma pstep_defined (st st' : pstate) (t : token) :
  pstep st t = Some st' -> finished_defined st'.
Proof.
  destruct st as [stack e]. destruct e; simpl; intros H.
  - eapply begin_value_defined; eauto.
  - destruct t; try (eapply begin_value_defined; eassumption).
    eapply close_defined; eauto.
  - destruct t; try discriminate.
    + eapply close_defined; eauto.
    + injection H as <-. exact I.
  - destruct t; try discriminate. injection H as <-. exact I.
  - destruct t; try discriminate.
    destruct stack as [|[items|fields|fields k] below]; try discriminate.
    injection H as <-. exact I.
  - destruct t; try discriminate;
      try (eapply close_defined; eauto; fail).
    destruct stack as [|[items|fields|fields k] below]; try discriminate;
      injection H as <-; exact I.
  - discriminate.
Qed.

Lemma prun_defined (ts : list token) :
  forall st v, finished_defined st -> prun st ts = Some v -> v <> VUndefined.
Proof.
  induction ts as [|t ts IH]; intros st v Hst H; simpl in H.
  - destruct st as [[|f stack] e]; try discriminate.
    destruct e; try discriminate. injection H as <-. exact Hst.
  - destruct (pstep st t) as [st'|] eqn:E; [|discriminate].
    eapply IH; [|exact H]. eapply pstep_defined; eauto.
Qed.

(** [JSON.parse] never returns [undefined]. *)
Lemma parse_defined (text : string) (v : value) :
  parse text = Some v -> v <> VUndefined.
Proof.
  unfold parse. destruct (lex MDefault text) as [ts|]; [|discriminate].
  apply prun_defined. exact I.
Qed.

End ParserFacts.

Section UriFacts.

Import URI.

(** The characters left alone by [encodeURI] are ASCII. *)
Lemma unescaped_ascii (c : ascii) : unescaped c = true -> (N_of_ascii c < 128)%N.
Proof.
  destruct c as [b0 b1 b2 b3 b4 b5 b6 [|]]; [|intros _].
  - destruct b0, b1, b2, b3, b4, b5, b6; vm_compute; discriminate.
  - destruct b0, b1, b2, b3, b4, b5, b6; vm_compute; reflexivity.
Qed.

Lemma encodeURI_unescaped (a b : string) :
  unescaped_text a = true ->
  encodeURI (a ++ b) = option_map (append a) (encodeURI b).
Proof.
  induction a as [|c a IH]; simpl; intros H.
  - now destruct (encodeURI b).
  - apply andb_true_iff in H as [Hc Ha].
    assert (Hs : lone_surrogate c (a ++ b) = false).
    { unfold lone_surrogate. apply andb_false_iff. left. apply N.eqb_neq.
      apply unescaped_ascii in Hc. lia. }
    rewrite Hs, Hc, (IH Ha). now destruct (encodeURI b).
Qed.

Lemma encodeURI_less_than (rest : string) :
  encodeURI (String "<" rest) = option_map (append "%3C") (encodeURI rest).
Proof. reflexivity. Qed.

(** The head of the address of a registry entry: the less-than sign of
    the range is percent-encoded. *)
Lemma encodeURI_range_prefix (x : string) :
  encodeURI ("https://unpkg.com/prisma@<=" ++ x)
  = option_map (append "https://unpkg.com/prisma@%3C=") (encodeURI x).
Proof.
  change ("https://unpkg.com/prisma@<=" ++ x)
    with ("https://unpkg.com/prisma@" ++ String "<" ("=" ++ x)).
  rewrite encodeURI_unescaped by (vm_compute; reflexivity).
  rewrite encodeURI_less_than.
  rewrite encodeURI_unescaped by (vm_compute; reflexivity).
  now destruct (encodeURI x).
Qed.

Lemma unescaped_text_app (a b : string) :
  unescaped_text (a ++ b) = unescaped_text a && unescaped_text b.
Proof.
  induction a as [|c a IH]; simpl; [reflexivity|]. now rewrite IH, andb_assoc.
Qed.

Lemma unescaped_digits (s : string) : all_digits s = true -> unescaped_text s = true.
Proof.
  induction s as [|c s IH]; simpl; intros H; [reflexivity|].
  apply andb_true_iff in H as [Hc Hs].
  unfold unescaped, is_alnum. rewrite Hc, (IH Hs). now rewrite !orb_true_r.
Qed.

(** The address of the registry entry for a numeric engine version. *)
Lemma encodeURI_numeric_range (major minor patch : string) :
  all_digits major = true -> all_digits minor = true -> all_digits patch = true ->
  encodeURI ("https://unpkg.com/prisma@<=" ++ major ++ "." ++ minor ++ "." ++ patch
               ++ "/package.json")
  = Some ("https://unpkg.com/prisma@%3C=" ++ major ++ "." ++ minor ++ "." ++ patch
            ++ "/package.json").
Proof.
  intros H1 H2 H3. rewrite encodeURI_range_prefix.
  assert (E : encodeURI (major ++ "." ++ minor ++ "." ++ patch ++ "/package.json")
              = Some (major ++ "." ++ minor ++ "." ++ patch ++ "/package.json")).
  { rewrite <- (append_nil_r (major ++ "." ++ minor ++ "." ++ patch ++ "/package.json")) at 1.
    rewrite encodeURI_unescaped.
    - simpl. now rewrite append_nil_r.
    - rewrite !unescaped_text_app.
      rewrite (unescaped_digits _ H1), (unescaped_digits _ H2), (unescaped_digits _ H3).
      vm_compute. reflexivity. }
  rewrite E. reflexivity.
Qed.

End UriFacts.

(** ** Runs of the resolver *)

Section ResolverFacts.

(** The exported function returns what the inner one returns. *)
Lemma getClientVersion_inner (w : World) (config : EngineConfig) :
  getClientVersion w config = _getClientVersion w config.
Proof.
  unfold getClientVersion, bind.
  destruct (_getClientVersion w config) as [cs [e|v]]; simpl; [reflexivity|].
  now rewrite app_nil_r.
Qed.

Lemma splitClientVersion_plain (cv : string) :
  JsString.includes "-" cv = false -> splitClientVersion cv = (Some cv, None).
Proof.
  intros H. unfold splitClientVersion. now rewrite (split_without _ _ H).
Qed.

Lemma splitClientVersion_suffixed (cv : string) :
  JsString.includes "-" cv = true ->
  exists v x, splitClientVersion cv = (Some v, Some x).
Proof.
  intros H. apply includes_cut in H as (a & t & -> & Ha).
  unfold splitClientVersion. rewrite (split_at_first _ _ _ Ha).
  destruct (split_head "-" t) as (x & rest & ->). now exists a, x.
Qed.

Lemma unset_is_falsy (w : World) (name : string) :
  process_env w name = None -> JsString.truthy (process_env w name) = false.
Proof. now intros ->. Qed.

(** With the override out of the way, a version with a hyphen and the
    version 0.0.0 take the fallback path. *)
Lemma fallback_route (w : World) (cv : string) :
  JsString.truthy (process_env w "PRISMA_CLIENT_DATA_PROXY_CLIENT_VERSION") = false ->
  JsString.includes "-" cv = true \/ cv = "0.0.0" ->
  _getClientVersion w {| clientVersion := Some cv |} = fallbackPath w cv.
Proof.
  intros Hov [H| ->]; unfold _getClientVersion; simpl clientVersion; rewrite Hov.
  - destruct (splitClientVersion_suffixed _ H) as (v & x & ->). reflexivity.
  - reflexivity.
Qed.

(** The response is handled without any further call. *)
Lemma handleResponse_calls (res : Response) : calls (handleResponse res) = [].
Proof.
  unfold handleResponse. destruct (negb (ok res)); [reflexivity|].
  destruct (JSON.parse (text res)) as [[| | | | | |fields]|]; try reflexivity.
  simpl. now destruct (lookup "version" fields).
Qed.

(** The fallback path past the test-mode check and the 4.17 pin, when the
    address can be encoded: one call, whose response decides the
    outcome. *)
Lemma resolveFromEngine_request (w : World) (cv v u : string) (sfx : list string) :
  JsString.split "-" (engines_version w) = v :: sfx ->
  JsString.strictEq (item 0 (JsString.split "." v)) "4"
    && JsString.strictEq (item 1 (JsString.split "." v)) "17" = false ->
  URI.encodeURI ("https://unpkg.com/prisma@"
                   ++ ("<=" ++ JsString.toString (item 0 (JsString.split "." v)) ++ "."
                         ++ JsString.toString (item 1 (JsString.split "." v)) ++ "."
                         ++ JsString.toString (item 2 (JsString.split "." v)))
                   ++ "/package.json") = Some u ->
  resolveFromEngine w cv
  = {| calls := [ {| url := u; options := {| opt_clientVersion := cv |} |} ];
       outcome := outcome (handleResponse (request w u {| opt_clientVersion := cv |})) |}.
Proof.
  intros Hs Hpin Hu. unfold resolveFromEngine. rewrite Hs.
  change (item 0 (v :: sfx)) with (Some v). cbv beta iota zeta.
  rewrite Hpin. unfold prismaPkgURL. rewrite Hu.
  unfold bind, ret, await_request. simpl.
  rewrite handleResponse_calls.
  destruct (outcome (handleResponse _)); reflexivity.
Qed.

(** Every run makes no call, or one call whose response decides the
    outcome. *)
Lemma run_shape (w : World) (config : EngineConfig) :
  calls (getClientVersion w config) = []
  \/ exists c,
       getClientVersion w config
       = {| calls := [c];
            outcome := outcome (handleResponse (request w (url c) (options c))) |}.
Proof.
  rewrite getClientVersion_inner. unfold _getClientVersion.
  destruct (JsString.truthy _); [now left|].
  destruct (splitClientVersion _) as [version suffix].
  destruct (negb (isSome suffix) && RegExp.test semverRegex version); [now left|].
  destruct (isSome suffix || String.eqb _ "0.0.0"); [|now left].
  unfold fallbackPath. destruct (isSome _); [now left|].
  destruct (split_head "-" (engines_version w)) as (v & sfx & Hs).
  destruct (JsString.strictEq (item 0 (JsString.split "." v)) "4"
            && JsString.strictEq (item 1 (JsString.split "." v)) "17") eqn:Hpin.
  - left. unfold resolveFromEngine. rewrite Hs.
    change (item 0 (v :: sfx)) with (Some v). cbv beta iota zeta.
    now rewrite Hpin.
  - destruct (URI.encodeURI ("https://unpkg.com/prisma@"
                   ++ ("<=" ++ JsString.toString (item 0 (JsString.split "." v)) ++ "."
                         ++ JsString.toString (item 1 (JsString.split "." v)) ++ "."
                         ++ JsString.toString (item 2 (JsString.split "." v)))
                   ++ "/package.json")) as [u|] eqn:Hu.
    + right. rewrite (resolveFromEngine_request _ _ _ _ _ Hs Hpin Hu).
      now eexists {| url := u; options := {| opt_clientVersion := _ |} |}.
    + left. unfold resolveFromEngine. rewrite Hs.
      change (item 0 (v :: sfx)) with (Some v). cbv beta iota zeta.
      rewrite Hpin. unfold prismaPkgURL. rewrite Hu. reflexivity.
Qed.

End ResolverFacts.

(** ** The resolver against its specification *)

Section OverrideAndFastPath.

(** C1.  A client version without a hyphen that matches [semverRegex] is
    returned unchanged, without any call to the registry, when the
    forced-version variable is unset. *)
Theorem fast_path_returns_version (w : World) (cv : string) :
  process_env w "PRISMA_CLIENT_DATA_PROXY_CLIENT_VERSION" = None ->
  JsString.includes "-" cv = false ->
  RegExp.test semverRegex (Some cv) = true ->
  getClientVersion w {| clientVersion := Some cv |}
  = {| calls := []; outcome := inr (VString cv) |}.
Proof.
  intros Hov Hh Hre. rewrite getClientVersion_inner. unfold _getClientVersion.
  simpl clientVersion.
  rewrite (unset_is_falsy _ _ Hov), (splitClientVersion_plain _ Hh).
  cbn [isSome negb andb]. rewrite Hre. reflexivity.
Qed.

Lemma fast_path_returns_version_witness :
  getClientVersion Sample.published (Sample.config "10.20.30")
  = {| calls := []; outcome := inr (VString "10.20.30") |}.
Proof.
  apply (fast_path_returns_version Sample.published "10.20.30"); reflexivity.
Defined.

(** C2, as stated, fails: a forced-version variable set to the empty string
    is ignored, and the client version decides. *)
Lemma empty_forced_version_ignored :
  process_env (Sample.forced "") "PRISMA_CLIENT_DATA_PROXY_CLIENT_VERSION" = Some ""
  /\ getClientVersion (Sample.forced "") (Sample.config "1.2.3")
     = {| calls := []; outcome := inr (VString "1.2.3") |}
  /\ outcome (getClientVersion (Sample.forced "") (Sample.config "1.2.3"))
     <> inr (VString "").
Proof.
  repeat split; try reflexivity. vm_compute. discriminate.
Qed.

(** C2, amended.  A non-empty value of the forced-version variable is
    returned as it is, without any call, whatever the configuration, the
    rest of the environment, the engines version and the registry. *)
Theorem forced_version_returned (w : World) (config : EngineConfig) (v : string) :
  process_env w "PRISMA_CLIENT_DATA_PROXY_CLIENT_VERSION" = Some v ->
  v <> "" ->
  getClientVersion w config = {| calls := []; outcome := inr (VString v) |}.
Proof.
  intros Hov Hv. rewrite getClientVersion_inner. unfold _getClientVersion.
  rewrite Hov, (truthy_nonempty _ Hv). reflexivity.
Qed.

Lemma forced_version_returned_witness :
  getClientVersion (Sample.forced "5.1.0") (Sample.config "abc")
  = {| calls := []; outcome := inr (VString "5.1.0") |}.
Proof.
  apply (forced_version_returned (Sample.forced "5.1.0") (Sample.config "abc") "5.1.0").
  - reflexivity.
  - discriminate.
Defined.

End OverrideAndFastPath.

Section Rejection.

(** C3.  A client version without a hyphen that neither matches
    [semverRegex] nor is 0.0.0 is rejected, when the forced-version
    variable is unset, with the error that carries the client version (the
    [NotImplementedYetError] of the source, the specification's
    [UnsupportedVersionFormat]); no call is made. *)
Theorem unsupported_version_rejected (w : World) (cv : string) :
  process_env w "PRISMA_CLIENT_DATA_PROXY_CLIENT_VERSION" = None ->
  JsString.includes "-" cv = false ->
  RegExp.test semverRegex (Some cv) = false ->
  cv <> "0.0.0" ->
  getClientVersion w {| clientVersion := Some cv |}
  = {| calls := [];
       outcome := inl (NotImplementedYetError
                         "Only `major.minor.patch` versions are supported by Prisma Data Proxy."
                         cv) |}.
Proof.
  intros Hov Hh Hre Hz. rewrite getClientVersion_inner. unfold _getClientVersion.
  simpl clientVersion.
  rewrite (unset_is_falsy _ _ Hov), (splitClientVersion_plain _ Hh).
  cbn [isSome negb andb orb]. rewrite Hre.
  apply String.eqb_neq in Hz. rewrite Hz. reflexivity.
Qed.

Lemma unsupported_version_rejected_witness :
  getClientVersion Sample.published (Sample.config "abc")
  = {| calls := [];
       outcome := inl (NotImplementedYetError
                         "Only `major.minor.patch` versions are supported by Prisma Data Proxy."
                         "abc") |}.
Proof.
  apply (unsupported_version_rejected Sample.published "abc");
    [reflexivity | reflexivity | reflexivity | discriminate].
Defined.

(** C9.  Without a client version in the configuration, and with the
    forced-version variable unset, the resolver fails with the error that
    carries the default "unknown", which has no hyphen, does not match
    [semverRegex] and is not 0.0.0; no call is made. *)
Theorem absent_version_rejected (w : World) :
  process_env w "PRISMA_CLIENT_DATA_PROXY_CLIENT_VERSION" = None ->
  getClientVersion w {| clientVersion := None |}
  = {| calls := [];
       outcome := inl (NotImplementedYetError
                         "Only `major.minor.patch` versions are supported by Prisma Data Proxy."
                         "unknown") |}
  /\ JsString.includes "-" "unknown" = false
  /\ RegExp.test semverRegex (Some "unknown") = false
  /\ "unknown" <> "0.0.0".
Proof.
  intros Hov. repeat split; try reflexivity; [|discriminate].
  rewrite getClientVersion_inner. unfold _getClientVersion.
  simpl clientVersion. rewrite (unset_is_falsy _ _ Hov). reflexivity.
Qed.

Lemma absent_version_rejected_witness :
  outcome (getClientVersion Sample.published {| clientVersion := None |})
  = inl (NotImplementedYetError
           "Only `major.minor.patch` versions are supported by Prisma Data Proxy."
           "unknown").
Proof.
  destruct (absent_version_rejected Sample.published eq_refl) as [H _].
  rewrite H. reflexivity.
Defined.

End Rejection.

Section FallbackPath.

Lemma suffix_needs_hyphen (cv : string) :
  isSome (snd (splitClientVersion cv)) = true -> JsString.includes "-" cv = true.
Proof.
  destruct (JsString.includes "-" cv) eqn:E; [reflexivity|].
  now rewrite (splitClientVersion_plain _ E).
Qed.

(** A call to the registry is made only on the fallback path, outside the
    test mode, for an engines version that is not pinned. *)
Lemma request_only_on_fallback (w : World) (cv : string) :
  calls (getClientVersion w {| clientVersion := Some cv |}) <> [] ->
  JsString.truthy (process_env w "PRISMA_CLIENT_DATA_PROXY_CLIENT_VERSION") = false
  /\ process_env w "TEST_DATA_PROXY" = None
  /\ (JsString.includes "-" cv = true \/ cv = "0.0.0")
  /\ exists v sfx,
       JsString.split "-" (engines_version w) = v :: sfx
       /\ JsString.strictEq (item 0 (JsString.split "." v)) "4"
          && JsString.strictEq (item 1 (JsString.split "." v)) "17" = false.
Proof.
  rewrite getClientVersion_inner. unfold _getClientVersion. simpl clientVersion.
  destruct (JsString.truthy _); [now intros []|].
  pose proof (suffix_needs_hyphen cv) as Hsfx.
  destruct (splitClientVersion cv) as [version suffix]. simpl in Hsfx.
  destruct (negb (isSome suffix) && RegExp.test semverRegex version); [now intros []|].
  destruct (isSome suffix || String.eqb cv "0.0.0") eqn:Hroute; [|now intros []].
  unfold fallbackPath.
  destruct (process_env w "TEST_DATA_PROXY") as [t|]; [now intros []|].
  destruct (split_head "-" (engines_version w)) as (v & sfx & Hs).
  unfold resolveFromEngine. rewrite Hs.
  change (item 0 (v :: sfx)) with (Some v). cbv beta iota zeta.
  destruct (JsString.strictEq (item 0 (JsString.split "." v)) "4"
            && JsString.strictEq (item 1 (JsString.split "." v)) "17") eqn:Hpin;
    [now intros []|].
  intros _. repeat split; auto.
  - apply orb_true_iff in Hroute as [H|H]; [left; auto | right].
    now apply String.eqb_eq.
  - now exists v, sfx.
Qed.

(** C4.  When the request to the registry is made, the run ends in an
    [UpstreamFetchError] exactly when the response is not successful or
    its body does not parse; after an unsuccessful response the error
    message holds the status, the status text and the body, or a
    placeholder for an empty body; after a body that does not parse the
    error is the parser's own. *)
Theorem upstream_failure_iff (w : World) (config : EngineConfig) (c : Call) :
  calls (getClientVersion w config) = [c] ->
  let res := request w (url c) (options c) in
  let run := getClientVersion w config in
  (failsUpstream run = true <-> ok res = false \/ JSON.parse (text res) = None)
  /\ (ok res = false ->
      outcome run
      = inl (Error ("Failed to fetch stable Prisma version, unpkg.com status "
                      ++ JsString.ofN (status res) ++ " " ++ statusText res
                      ++ ", response body: "
                      ++ (if String.eqb (text res) "" then "<empty body>" else text res))))
  /\ (ok res = true -> JSON.parse (text res) = None -> outcome run = inl SyntaxError).
Proof.
  intros Hc res run.
  assert (Hrun : outcome run = outcome (handleResponse res)).
  { subst run res. destruct (run_shape w config) as [H|(c' & H)].
    - rewrite H in Hc. discriminate.
    - rewrite H in Hc. injection Hc as ->. now rewrite H. }
  unfold failsUpstream. rewrite Hrun. clear Hrun Hc. unfold handleResponse.
  destruct (ok res) eqn:Hok; simpl.
  - destruct (JSON.parse (text res)) as [j|] eqn:Hp.
    + repeat split; try discriminate.
      * destruct j as [| | | | | |fields]; simpl; try discriminate.
        destruct (lookup "version" fields); discriminate.
      * intros [H|H]; discriminate.
    + repeat split; auto. discriminate.
  - repeat split; auto; try discriminate.
    intros _. destruct (String.eqb (text res) ""); reflexivity.
Qed.

Lemma upstream_failure_iff_witness :
  outcome (getClientVersion Sample.missing (Sample.config "1.2.3-dev.7"))
  = inl (Error "Failed to fetch stable Prisma version, unpkg.com status 404 Not Found, response body: not found").
Proof.
  destruct (upstream_failure_iff Sample.missing (Sample.config "1.2.3-dev.7")
              {| url := "https://unpkg.com/prisma@%3C=4.18.0/package.json";
                 options := {| opt_clientVersion := "1.2.3-dev.7" |} |} eq_refl)
    as (_ & H & _).
  apply H. reflexivity.
Defined.

Lemma address_template (major minor patch : string) :
  "https://unpkg.com/prisma@" ++ ("<=" ++ major ++ "." ++ minor ++ "." ++ patch)
    ++ "/package.json"
  = "https://unpkg.com/prisma@<=" ++ major ++ "." ++ minor ++ "." ++ patch
      ++ "/package.json".
Proof. simpl. repeat (rewrite append_assoc; simpl). reflexivity. Qed.

(** C5, as stated, fails, in two places.  The address that is requested is
    not the one with the range written [<=]: the less-than sign is
    percent-encoded.  And a successful response with well-formed JSON does
    not always give a version: for the body [null] the run ends in a
    [TypeError]. *)
Lemma registry_lookup_as_stated_fails :
  (calls (getClientVersion Sample.published (Sample.config "1.2.3-dev.7"))
   = [ {| url := "https://unpkg.com/prisma@%3C=4.18.0/package.json";
          options := {| opt_clientVersion := "1.2.3-dev.7" |} |} ]
   /\ forall c,
        In c (calls (getClientVersion Sample.published (Sample.config "1.2.3-dev.7"))) ->
        url c <> "https://unpkg.com/prisma@<=4.18.0/package.json")
  /\ (let run := getClientVersion Sample.answers_null (Sample.config "1.2.3-dev.7") in
      let res := request Sample.answers_null
                   "https://unpkg.com/prisma@%3C=4.18.0/package.json"
                   {| opt_clientVersion := "1.2.3-dev.7" |} in
      process_env Sample.answers_null "PRISMA_CLIENT_DATA_PROXY_CLIENT_VERSION" = None
      /\ process_env Sample.answers_null "TEST_DATA_PROXY" = None
      /\ engines_version Sample.answers_null = "4.18.0"
      /\ status res = 200%N
      /\ JSON.parse (text res) = Some VNull
      /\ outcome run = inl TypeError
      /\ forall v, outcome run <> inr v).
Proof.
  split.
  - split; [reflexivity|]. intros c [<-|[]]. discriminate.
  - repeat split; try reflexivity. intros v. vm_compute. discriminate.
Qed.

(** C5, amended.  On the fallback path, with the forced-version variable
    and the test-mode flag unset and an engines version other than 4.17,
    the resolver makes exactly one call, to the address obtained by
    [encodeURI] from [https://unpkg.com/prisma@<=major.minor.patch/package.json]
    (the less-than sign becomes [%3C]), when such an encoding exists; after
    a successful response whose body parses to a value other than [null]
    it returns the [version] member of the payload, and [undefined] when
    the payload has no such member. *)
Theorem registry_lookup (w : World) (cv v major minor patch u : string)
    (sfx more : list string) :
  process_env w "PRISMA_CLIENT_DATA_PROXY_CLIENT_VERSION" = None ->
  process_env w "TEST_DATA_PROXY" = None ->
  JsString.includes "-" cv = true \/ cv = "0.0.0" ->
  JsString.split "-" (engines_version w) = v :: sfx ->
  JsString.split "." v = major :: minor :: patch :: more ->
  ~ (major = "4" /\ minor = "17") ->
  URI.encodeURI ("https://unpkg.com/prisma@<=" ++ major ++ "." ++ minor ++ "." ++ patch
                   ++ "/package.json") = Some u ->
  let run := getClientVersion w {| clientVersion := Some cv |} in
  let res := request w u {| opt_clientVersion := cv |} in
  calls run = [ {| url := u; options := {| opt_clientVersion := cv |} |} ]
  /\ forall payload,
       ok res = true ->
       JSON.parse (text res) = Some payload ->
       payload <> VNull ->
       (forall fields version,
          payload = VObject fields ->
          lookup "version" fields = Some version ->
          outcome run = inr version)
       /\ (hasVersionField payload = false -> outcome run = inr VUndefined).
Proof.
  intros Hov Htest Hroute Hs Hparts Hpin Hu run res.
  assert (Hrun : run = {| calls := [ {| url := u; options := {| opt_clientVersion := cv |} |} ];
                          outcome := outcome (handleResponse res) |}).
  { subst run res. rewrite getClientVersion_inner.
    rewrite (fallback_route w cv (unset_is_falsy _ _ Hov) Hroute).
    unfold fallbackPath. rewrite Htest. cbn [isSome].
    apply (resolveFromEngine_request w cv v u sfx Hs); rewrite Hparts; cbn [item nth_error].
    - cbn [JsString.strictEq]. destruct (String.eqb_spec major "4") as [->|]; [|reflexivity].
      destruct (String.eqb_spec minor "17") as [->|]; [|reflexivity].
      exfalso. apply Hpin. split; reflexivity.
    - cbn [JsString.toString]. rewrite address_template. exact Hu. }
  rewrite Hrun. split; [reflexivity|].
  intros payload Hok Hp Hnull. cbn [outcome]. unfold handleResponse.
  rewrite Hok, Hp. cbn [negb]. split.
  - intros fields version -> Hl. cbn [getVersionProperty]. now rewrite Hl.
  - intros Hfield. pose proof (parse_defined _ _ Hp) as Hdef.
    destruct payload as [| | | | | |fields]; try reflexivity; try contradiction.
    simpl in Hfield |- *. now destruct (lookup "version" fields).
Qed.

Lemma registry_lookup_witness :
  calls (getClientVersion Sample.published (Sample.config "1.2.3-dev.7"))
  = [ {| url := "https://unpkg.com/prisma@%3C=4.18.0/package.json";
         options := {| opt_clientVersion := "1.2.3-dev.7" |} |} ]
  /\ outcome (getClientVersion Sample.published (Sample.config "1.2.3-dev.7"))
     = inr (VString "4.18.0").
Proof.
  assert (Hpin : ~ ("4" = "4" /\ "18" = "17")) by (intros [_ H]; discriminate H).
  destruct (registry_lookup Sample.published "1.2.3-dev.7" "4.18.0" "4" "18" "0"
              "https://unpkg.com/prisma@%3C=4.18.0/package.json" [] []
              eq_refl eq_refl (or_introl eq_refl) eq_refl eq_refl Hpin eq_refl)
    as [Hc Hv].
  split; [exact Hc|].
  assert (Hnull : VObject [("version", VString "4.18.0")] <> VNull) by discriminate.
  destruct (Hv (VObject [("version", VString "4.18.0")]) eq_refl eq_refl Hnull)
    as [Hmember _].
  exact (Hmember [("version", VString "4.18.0")] (VString "4.18.0") eq_refl eq_refl).
Defined.

End FallbackPath.

Section ShortCircuits.

(** C6.  On the fallback path (a hyphen in the client version, or the
    client version 0.0.0, which does not match [semverRegex]), with the
    forced-version variable unset and the test-mode flag defined to any
    value, the resolver returns 0.0.0 without any call. *)
Theorem test_mode_returns_zero (w : World) (cv flag : string) :
  process_env w "PRISMA_CLIENT_DATA_PROXY_CLIENT_VERSION" = None ->
  process_env w "TEST_DATA_PROXY" = Some flag ->
  JsString.includes "-" cv = true \/ cv = "0.0.0" ->
  getClientVersion w {| clientVersion := Some cv |}
  = {| calls := []; outcome := inr (VString "0.0.0") |}
  /\ RegExp.test semverRegex (Some "0.0.0") = false.
Proof.
  intros Hov Htest Hroute. split; [|reflexivity].
  rewrite getClientVersion_inner.
  rewrite (fallback_route w cv (unset_is_falsy _ _ Hov) Hroute).
  unfold fallbackPath. rewrite Htest. reflexivity.
Qed.

Lemma test_mode_returns_zero_witness :
  getClientVersion (Sample.testing "4.18.0") (Sample.config "1.2.3-dev.7")
  = {| calls := []; outcome := inr (VString "0.0.0") |}.
Proof.
  apply (test_mode_returns_zero (Sample.testing "4.18.0") "1.2.3-dev.7" "1"
           eq_refl eq_refl (or_introl eq_refl)).
Defined.

(** C7, as stated, fails: with the engines version 4.17.2 and a
    pre-release client version, the test-mode flag still comes first and
    the resolver returns 0.0.0, not 5.0.0. *)
Lemma test_mode_precedes_pin :
  JsString.includes "-" "1.2.3-dev.7" = true
  /\ getClientVersion (Sample.testing "4.17.2") (Sample.config "1.2.3-dev.7")
     = {| calls := []; outcome := inr (VString "0.0.0") |}
  /\ outcome (getClientVersion (Sample.testing "4.17.2") (Sample.config "1.2.3-dev.7"))
     <> inr (VString "5.0.0").
Proof.
  repeat split; try reflexivity. vm_compute. discriminate.
Qed.

(** C7, amended.  With the forced-version variable and the test-mode flag
    unset, for an engines version whose part before the first hyphen has
    the components 4 and 17 in front (4.17.2 for one) and any client
    version with a hyphen, the resolver returns 5.0.0 without any call. *)
Theorem engine_4_17_pinned (w : World) (cv v : string) (sfx : list string) :
  process_env w "PRISMA_CLIENT_DATA_PROXY_CLIENT_VERSION" = None ->
  process_env w "TEST_DATA_PROXY" = None ->
  JsString.includes "-" cv = true ->
  JsString.split "-" (engines_version w) = v :: sfx ->
  item 0 (JsString.split "." v) = Some "4" ->
  item 1 (JsString.split "." v) = Some "17" ->
  getClientVersion w {| clientVersion := Some cv |}
  = {| calls := []; outcome := inr (VString "5.0.0") |}.
Proof.
  intros Hov Htest Hh Hs Hmajor Hminor. rewrite getClientVersion_inner.
  rewrite (fallback_route w cv (unset_is_falsy _ _ Hov) (or_introl Hh)).
  unfold fallbackPath. rewrite Htest. cbn [isSome].
  unfold resolveFromEngine. rewrite Hs.
  change (item 0 (v :: sfx)) with (Some v). cbv beta iota zeta.
  rewrite Hmajor, Hminor. reflexivity.
Qed.

Lemma engine_4_17_pinned_witness :
  getClientVersion Sample.pinned (Sample.config "5.0.0-dev.12")
  = {| calls := []; outcome := inr (VString "5.0.0") |}.
Proof.
  apply (engine_4_17_pinned Sample.pinned "5.0.0-dev.12" "4.17.2" []
           eq_refl eq_refl eq_refl eq_refl eq_refl eq_refl).
Defined.

End ShortCircuits.

Section Suffix.

(** C8, as stated, fails: for 1.2.3-dev-4 the suffix is dev, not dev-4;
    the text after the second hyphen is dropped. *)
Lemma suffix_stops_at_second_hyphen :
  splitClientVersion "1.2.3-dev-4" = (Some "1.2.3", Some "dev")
  /\ snd (splitClientVersion "1.2.3-dev-4") <> Some "dev-4".
Proof.
  split; [reflexivity|]. vm_compute. discriminate.
Qed.

(** C8, amended.  A client version with more than one hyphen is split at
    every hyphen: the version is the text before the first hyphen and the
    suffix is the text between the first and the second one (dev for
    1.2.3-dev-4); such a client version takes the fallback path when the
    forced-version variable is unset. *)
Theorem suffix_between_hyphens (cv : string) :
  2 <= count "-" cv ->
  exists a b c,
    cv = a ++ "-" ++ b ++ "-" ++ c
    /\ JsString.includes "-" a = false /\ JsString.includes "-" b = false
    /\ splitClientVersion cv = (Some a, Some b)
    /\ forall w,
         process_env w "PRISMA_CLIENT_DATA_PROXY_CLIENT_VERSION" = None ->
         getClientVersion w {| clientVersion := Some cv |} = fallbackPath w cv.
Proof.
  intros H. destruct (count_two_cut _ _ H) as (a & b & c & -> & Ha & Hb).
  exists a, b, c. repeat split; auto.
  - unfold splitClientVersion.
    now rewrite (split_at_first _ _ _ Ha), (split_at_first _ _ _ Hb).
  - intros w Hov. rewrite getClientVersion_inner.
    apply fallback_route; [now apply unset_is_falsy|]. left.
    rewrite includes_app. simpl. apply orb_true_r.
Qed.

Lemma suffix_between_hyphens_witness :
  exists a b c,
    "1.2.3-dev-4" = a ++ "-" ++ b ++ "-" ++ c
    /\ JsString.includes "-" a = false /\ JsString.includes "-" b = false
    /\ splitClientVersion "1.2.3-dev-4" = (Some a, Some b)
    /\ forall w,
         process_env w "PRISMA_CLIENT_DATA_PROXY_CLIENT_VERSION" = None ->
         getClientVersion w {| clientVersion := Some "1.2.3-dev-4" |}
         = fallbackPath w "1.2.3-dev-4".
Proof.
  apply (suffix_between_hyphens "1.2.3-dev-4"). simpl. lia.
Defined.

End Suffix.

Section MissingField.

(** C10, as stated, fails: the body [null] parses and has no [version]
    member, yet reading the member of [null] throws a [TypeError]. *)
Lemma null_payload_throws :
  let run := getClientVersion Sample.answers_null (Sample.config "1.2.3-dev.7") in
  let res := request Sample.answers_null
               "https://unpkg.com/prisma@%3C=4.18.0/package.json"
               {| opt_clientVersion := "1.2.3-dev.7" |} in
  calls run = [ {| url := "https://unpkg.com/prisma@%3C=4.18.0/package.json";
                   options := {| opt_clientVersion := "1.2.3-dev.7" |} |} ]
  /\ ok res = true
  /\ JSON.parse (text res) = Some VNull
  /\ hasVersionField VNull = false
  /\ outcome run = inl TypeError.
Proof.
  repeat split; reflexivity.
Qed.

(** C10, amended.  When the request to the registry is made and the
    response is successful with a body that parses to a value other than
    [null] without a [version] member, the resolver does not fail: it
    returns [undefined], with no check that the member exists or is a
    string. *)
Theorem missing_version_is_undefined (w : World) (config : EngineConfig)
    (c : Call) (payload : value) :
  calls (getClientVersion w config) = [c] ->
  ok (request w (url c) (options c)) = true ->
  JSON.parse (text (request w (url c) (options c))) = Some payload ->
  payload <> VNull ->
  hasVersionField payload = false ->
  getClientVersion w config = {| calls := [c]; outcome := inr VUndefined |}.
Proof.
  intros Hc Hok Hp Hnull Hfield.
  destruct (run_shape w config) as [H|(c' & H)]; [rewrite H in Hc; discriminate|].
  rewrite H in Hc. injection Hc as ->. rewrite H. f_equal.
  unfold handleResponse. rewrite Hok, Hp. cbn [negb].
  pose proof (parse_defined _ _ Hp) as Hdef.
  destruct payload as [| | | | | |fields]; try reflexivity; try contradiction.
  simpl in Hfield |- *. now destruct (lookup "version" fields).
Qed.

Lemma missing_version_is_undefined_witness :
  getClientVersion Sample.answers_empty_object (Sample.config "0.0.0")
  = {| calls := [ {| url := "https://unpkg.com/prisma@%3C=4.18.0/package.json";
                     options := {| opt_clientVersion := "0.0.0" |} |} ];
       outcome := inr VUndefined |}.
Proof.
  apply (missing_version_is_undefined Sample.answers_empty_object (Sample.config "0.0.0")
           {| url := "https://unpkg.com/prisma@%3C=4.18.0/package.json";
              options := {| opt_clientVersion := "0.0.0" |} |} (VObject [])).
  - reflexivity.
  - reflexivity.
  - reflexivity.
  - discriminate.
  - reflexivity.
Defined.

End MissingField.

(** ** Evaluations of the model *)

Section Evaluations.

Import Sample.

Example split_every_hyphen :
  JsString.split "-" "1.2.3-dev-4" = ["1.2.3"; "dev"; "4"]
  /\ JsString.split "-" "" = [""]
  /\ JsString.split "-" "-" = [""; ""]
  /\ JsString.split "." "4.17.2" = ["4"; "17"; "2"].
Proof. repeat split; reflexivity. Qed.

Example semverRegex_samples :
  map (fun s => RegExp.test semverRegex (Some s))
      ["1.2.3"; "10.20.30"; "0.0.0"; "01.2.3"; "1.2"; "1.2.3.4"; "1.2.3 "; "1..3"; "abc"]
  = [true; true; false; false; false; false; false; false; false].
Proof. reflexivity. Qed.

Example parse_objects :
  JSON.parse body_4_18_0 = Some (VObject [("version", VString "4.18.0")])
  /\ JSON.parse (" { " ++ q ++ "a" ++ q ++ " : [1, -2.5e+3, true, false, null, {}, []] } ")
     = Some (VObject [("a", VArray [VNumber "1"; VNumber "-2.5e+3"; VBool true;
                                    VBool false; VNull; VObject []; VArray []])])
  /\ JSON.parse ("{" ++ q ++ "version" ++ q ++ ":1," ++ q ++ "version" ++ q ++ ":2}")
     = Some (VObject [("version", VNumber "1"); ("version", VNumber "2")]).
Proof. repeat split; reflexivity. Qed.

Example parse_escapes :
  JSON.parse (q ++ "A\n\/" ++ q)
  = Some (VString (String "A" (String (ascii_of_nat 10) "/")))
  /\ JSON.parse (q ++ "\u00e9" ++ q)
     = Some (VString (String (ascii_of_nat 195) (String (ascii_of_nat 169) "")))
  /\ JSON.parse (q ++ "\uD83D\ude00" ++ q)
     = Some (VString (String (ascii_of_nat 240) (String (ascii_of_nat 159)
                       (String (ascii_of_nat 152) (String (ascii_of_nat 128) "")))))
  /\ JSON.parse (q ++ "\ud83dx" ++ q)
     = Some (VString (String (ascii_of_nat 237) (String (ascii_of_nat 160)
                       (String (ascii_of_nat 189) "x")))).
Proof. repeat split; reflexivity. Qed.

Example parse_rejects :
  map JSON.parse
      [""; "01"; "1 2"; "[1,]"; "{,}"; "-"; "1."; "nul"; "truefalse"; "[1"; "]";
       "{" ++ q ++ "a" ++ q ++ " 1}"; q ++ "\x" ++ q; q ++ "a"; "undefined"]
  = [None; None; None; None; None; None; None; None; None; None; None;
     None; None; None; None].
Proof. reflexivity. Qed.

Example last_member_wins :
  outcome (handleResponse
             {| status := 200; statusText := "OK";
                text := "{" ++ q ++ "version" ++ q ++ ":1," ++ q ++ "version" ++ q ++ ":2}" |})
  = inr (VNumber "2").
Proof. reflexivity. Qed.

Example encodeURI_samples :
  URI.encodeURI "https://unpkg.com/prisma@<=5.1.0/package.json"
  = Some "https://unpkg.com/prisma@%3C=5.1.0/package.json"
  /\ URI.encodeURI "a b[c]{d}|^`%" = Some "a%20b%5Bc%5D%7Bd%7D%7C%5E%60%25"
  /\ URI.encodeURI (String (ascii_of_nat 237) (String (ascii_of_nat 160)
                      (String (ascii_of_nat 128) ""))) = None.
Proof. repeat split; reflexivity. Qed.

(** An engines version with two components leaves the patch undefined. *)
Example short_engines_version :
  getClientVersion
    {| process_env := env_empty; engines_version := "4.18";
       request := respond 404 "Not Found" "" |}
    (config "0.0.0")
  = {| calls := [ {| url := "https://unpkg.com/prisma@%3C=4.18.undefined/package.json";
                     options := {| opt_clientVersion := "0.0.0" |} |} ];
       outcome := inl (Error "Failed to fetch stable Prisma version, unpkg.com status 404 Not Found, response body: <empty body>") |}.
Proof. reflexivity. Qed.

End Evaluations.

(** * Further properties of the resolver *)

(** ** All the ways a run can end *)

Section RunCases.

Lemma truthy_some (x : option string) :
  JsString.truthy x = true -> exists v, x = Some v /\ v <> "".
Proof.
  destruct x as [v|]; simpl; intros H; [|discriminate].
  exists v. split; [reflexivity|]. apply negb_true_iff in H. now apply String.eqb_neq.
Qed.

Lemma splitClientVersion_head (cv : string) :
  exists v, fst (splitClientVersion cv) = Some v.
Proof.
  unfold splitClientVersion. destruct (split_head "-" cv) as (v & rest & ->).
  now exists v.
Qed.

(** What is made of a response: a value, or one of three errors. *)
Lemma handleResponse_cases (res : Response) :
  (ok res = false /\ exists m, handleResponse res = throw (Error m))
  \/ (ok res = true /\ JSON.parse (text res) = None
      /\ handleResponse res = throw SyntaxError)
  \/ (ok res = true /\ exists payload,
        JSON.parse (text res) = Some payload
        /\ handleResponse res = getVersionProperty payload).
Proof.
  unfold handleResponse. destruct (ok res); simpl.
  - destruct (JSON.parse (text res)) as [payload|].
    + right. right. split; [reflexivity|]. now exists payload.
    + right. left. auto.
  - left. split; [reflexivity|]. eauto.
Qed.

(** The fallback path past the test-mode check. *)
Lemma resolveFromEngine_cases (w : World) (cv : string) :
  exists v sfx,
    JsString.split "-" (engines_version w) = v :: sfx
    /\ ((JsString.strictEq (item 0 (JsString.split "." v)) "4"
         && JsString.strictEq (item 1 (JsString.split "." v)) "17" = true
         /\ resolveFromEngine w cv = ret (VString "5.0.0"))
        \/ (JsString.strictEq (item 0 (JsString.split "." v)) "4"
            && JsString.strictEq (item 1 (JsString.split "." v)) "17" = false
            /\ (resolveFromEngine w cv = throw URIError
                \/ exists u,
                     resolveFromEngine w cv
                     = {| calls := [ {| url := u;
                                        options := {| opt_clientVersion := cv |} |} ];
                          outcome := outcome (handleResponse
                                                (request w u {| opt_clientVersion := cv |})) |}))).
Proof.
  destruct (split_head "-" (engines_version w)) as (v & sfx & Hs).
  exists v, sfx. split; [exact Hs|].
  destruct (JsString.strictEq (item 0 (JsString.split "." v)) "4"
            && JsString.strictEq (item 1 (JsString.split "." v)) "17") eqn:Hpin.
  - left. split; [reflexivity|]. unfold resolveFromEngine. rewrite Hs.
    change (item 0 (v :: sfx)) with (Some v). cbv beta iota zeta.
    now rewrite Hpin.
  - right. split; [reflexivity|].
    destruct (URI.encodeURI ("https://unpkg.com/prisma@"
                   ++ ("<=" ++ JsString.toString (item 0 (JsString.split "." v)) ++ "."
                         ++ JsString.toString (item 1 (JsString.split "." v)) ++ "."
                         ++ JsString.toString (item 2 (JsString.split "." v)))
                   ++ "/package.json")) as [u|] eqn:Hu.
    + right. exists u. exact (resolveFromEngine_request _ _ _ _ _ Hs Hpin Hu).
    + left. unfold resolveFromEngine. rewrite Hs.
      change (item 0 (v :: sfx)) with (Some v). cbv beta iota zeta.
      rewrite Hpin. unfold prismaPkgURL. rewrite Hu. reflexivity.
Qed.

(** Every run returns a string without any call, or rejects the client
    version, or fails to encode the address, or makes one call whose
    response decides the outcome. *)
Lemma run_cases (w : World) (config : EngineConfig) :
  (exists s, getClientVersion w config = ret (VString s))
  \/ getClientVersion w config
     = throw (NotImplementedYetError
                "Only `major.minor.patch` versions are supported by Prisma Data Proxy."
                (defaulted config))
  \/ getClientVersion w config = throw URIError
  \/ exists u,
       getClientVersion w config
       = {| calls := [ {| url := u;
                          options := {| opt_clientVersion := defaulted config |} |} ];
            outcome := outcome (handleResponse
                                  (request w u {| opt_clientVersion := defaulted config |})) |}.
Proof.
  rewrite getClientVersion_inner. unfold _getClientVersion.
  fold (defaulted config). set (cv := defaulted config).
  destruct (JsString.truthy _) eqn:Hov.
  { left. apply truthy_some in Hov as (v & -> & _). now exists v. }
  destruct (splitClientVersion_head cv) as (v0 & Hv0).
  destruct (splitClientVersion cv) as [version suffix]. simpl in Hv0. subst version.
  destruct (negb (isSome suffix) && RegExp.test semverRegex (Some v0)).
  { left. now exists v0. }
  destruct (isSome suffix || String.eqb cv "0.0.0"); [|right; left; reflexivity].
  unfold fallbackPath. destruct (isSome _).
  { left. now exists "0.0.0". }
  destruct (resolveFromEngine_cases w cv) as (v & sfx & _ & [[_ ->]|[_ [->| [u ->]]]]).
  - left. now exists "5.0.0".
  - right. right. left. reflexivity.
  - right. right. right. now exists u.
Qed.

End RunCases.

(** ** Calls and failures *)

Section CallsAndFailures.

(** X1.  Whatever the configuration, the environment, the engines version
    and the registry, a run makes at most one call to the registry. *)
Theorem at_most_one_call (w : World) (config : EngineConfig) :
  length (calls (getClientVersion w config)) <= 1.
Proof.
  destruct (run_cases w config) as [[s ->]|[->|[->|[u ->]]]]; simpl; lia.
Qed.

(** X2.  A call is made only when the forced-version variable is unset or
    empty, the test-mode flag is undefined, the client version (or its
    default) has a hyphen or is 0.0.0, and the engines version is not a
    4.17; the call carries that client version in its options. *)
Theorem call_only_on_fallback (w : World) (config : EngineConfig) (c : Call) :
  In c (calls (getClientVersion w config)) ->
  JsString.truthy (process_env w "PRISMA_CLIENT_DATA_PROXY_CLIENT_VERSION") = false
  /\ process_env w "TEST_DATA_PROXY" = None
  /\ (JsString.includes "-" (defaulted config) = true \/ defaulted config = "0.0.0")
  /\ opt_clientVersion (options c) = defaulted config
  /\ exists v sfx,
       JsString.split "-" (engines_version w) = v :: sfx
       /\ ~ (item 0 (JsString.split "." v) = Some "4"
             /\ item 1 (JsString.split "." v) = Some "17").
Proof.
  rewrite getClientVersion_inner. unfold _getClientVersion.
  fold (defaulted config). set (cv := defaulted config).
  destruct (JsString.truthy _); [intros []|].
  pose proof (suffix_needs_hyphen cv) as Hsfx.
  destruct (splitClientVersion cv) as [version suffix]. simpl in Hsfx.
  destruct (negb (isSome suffix) && RegExp.test semverRegex version); [intros []|].
  destruct (isSome suffix || String.eqb cv "0.0.0") eqn:Hroute; [|intros []].
  unfold fallbackPath.
  destruct (process_env w "TEST_DATA_PROXY") as [t|]; [intros []|]. cbn [isSome].
  destruct (resolveFromEngine_cases w cv)
    as (v & sfx & Hs & [[_ ->]|[Hpin [->| [u ->]]]]);
    [intros [] | intros [] |].
  intros [<-|[]]. repeat split; auto.
  - apply orb_true_iff in Hroute as [H|H]; [left; auto | right].
    now apply String.eqb_eq.
  - exists v, sfx. split; [exact Hs|]. intros [H4 H17].
    rewrite H4, H17 in Hpin. discriminate Hpin.
Qed.

Lemma call_only_on_fallback_witness :
  JsString.truthy (process_env Sample.published "PRISMA_CLIENT_DATA_PROXY_CLIENT_VERSION") = false
  /\ process_env Sample.published "TEST_DATA_PROXY" = None
  /\ (JsString.includes "-" "1.2.3-dev.7" = true \/ "1.2.3-dev.7" = "0.0.0")
  /\ "1.2.3-dev.7" = "1.2.3-dev.7"
  /\ exists v sfx,
       JsString.split "-" "4.18.0" = v :: sfx
       /\ ~ (item 0 (JsString.split "." v) = Some "4"
             /\ item 1 (JsString.split "." v) = Some "17").
Proof.
  apply (call_only_on_fallback Sample.published (Sample.config "1.2.3-dev.7")
           {| url := "https://unpkg.com/prisma@%3C=4.18.0/package.json";
              options := {| opt_clientVersion := "1.2.3-dev.7" |} |}).
  left. reflexivity.
Defined.

(** X3.  The error of a bad response and the error of a body that does not
    parse are never produced without a call to the registry. *)
Theorem upstream_failure_needs_call (w : World) (config : EngineConfig) :
  failsUpstream (getClientVersion w config) = true ->
  exists c, calls (getClientVersion w config) = [c].
Proof.
  unfold failsUpstream.
  destruct (run_cases w config) as [[s ->]|[->|[->|[u ->]]]]; simpl;
    try discriminate.
  intros _. eauto.
Qed.

Lemma upstream_failure_needs_call_witness :
  exists c, calls (getClientVersion Sample.missing (Sample.config "0.0.0")) = [c].
Proof.
  apply (upstream_failure_needs_call Sample.missing (Sample.config "0.0.0")).
  reflexivity.
Defined.

(** X4.  A run that makes no call and returns, returns a string. *)
Theorem without_call_returns_string (w : World) (config : EngineConfig) (v : value) :
  calls (getClientVersion w config) = [] ->
  outcome (getClientVersion w config) = inr v ->
  exists s, v = VString s.
Proof.
  destruct (run_cases w config) as [[s ->]|[->|[->|[u ->]]]]; simpl;
    intros Hc Ho; try discriminate.
  injection Ho as <-. now exists s.
Qed.

Lemma without_call_returns_string_witness :
  exists s, VString "0.0.0" = VString s.
Proof.
  apply (without_call_returns_string (Sample.testing "4.18.0") (Sample.config "0.0.0"));
    reflexivity.
Defined.

(** X5.  A run ends in a [TypeError] exactly when it made its call and the
    response was successful with a body that parses to [null]. *)
Theorem type_error_iff_null (w : World) (config : EngineConfig) :
  outcome (getClientVersion w config) = inl TypeError
  <-> exists c,
        calls (getClientVersion w config) = [c]
        /\ ok (request w (url c) (options c)) = true
        /\ JSON.parse (text (request w (url c) (options c))) = Some VNull.
Proof.
  split.
  - destruct (run_cases w config) as [[s ->]|[->|[->|[u ->]]]]; simpl;
      try discriminate.
    intros H. eexists. split; [reflexivity|]. simpl.
    destruct (handleResponse_cases (request w u {| opt_clientVersion := defaulted config |}))
      as [[_ [m E]]|[(_ & _ & E)|(Hok & payload & Hp & E)]];
      rewrite E in H; try discriminate.
    split; [exact Hok|]. rewrite Hp. f_equal.
    pose proof (parse_defined _ _ Hp) as Hdef.
    destruct payload as [| | | | | |fields]; try discriminate; try reflexivity;
      try contradiction.
    simpl in H. destruct (lookup "version" fields); discriminate.
  - intros (c & Hc & Hok & Hp).
    destruct (run_shape w config) as [H|(c' & H)]; [rewrite H in Hc; discriminate|].
    rewrite H in Hc. injection Hc as ->. rewrite H. simpl.
    unfold handleResponse. now rewrite Hok, Hp.
Qed.

End CallsAndFailures.

(** ** The dispatch on the client version *)

Section Dispatch.

(** X6.  The regular expression alone opens the fast path: a client version
    it accepts is returned unchanged, without any call, also when the
    forced-version variable is set to the empty string; that it has no
    hyphen need not be assumed. *)
Theorem accepted_version_returned (w : World) (cv : string) :
  JsString.truthy (process_env w "PRISMA_CLIENT_DATA_PROXY_CLIENT_VERSION") = false ->
  RegExp.test semverRegex (Some cv) = true ->
  getClientVersion w {| clientVersion := Some cv |}
  = {| calls := []; outcome := inr (VString cv) |}.
Proof.
  intros Hov Hre. rewrite getClientVersion_inner. unfold _getClientVersion.
  simpl clientVersion. rewrite Hov.
  rewrite (splitClientVersion_plain cv (semver_no_hyphen cv Hre)).
  cbn [isSome negb andb]. rewrite Hre. reflexivity.
Qed.

Lemma accepted_version_returned_witness :
  getClientVersion (Sample.forced "") (Sample.config "5.1.0")
  = {| calls := []; outcome := inr (VString "5.1.0") |}.
Proof.
  apply (accepted_version_returned (Sample.forced "") "5.1.0"); reflexivity.
Defined.

(** X7.  The client version is rejected exactly when the forced-version
    variable is unset or empty and the client version (or its default) has
    no hyphen, is not accepted by the regular expression and is not 0.0.0;
    the error then carries the fixed message and that client version. *)
Theorem rejected_iff (w : World) (config : EngineConfig) (message offending : string) :
  outcome (getClientVersion w config) = inl (NotImplementedYetError message offending)
  <-> (message = "Only `major.minor.patch` versions are supported by Prisma Data Proxy."
       /\ offending = defaulted config
       /\ JsString.truthy (process_env w "PRISMA_CLIENT_DATA_PROXY_CLIENT_VERSION") = false
       /\ JsString.includes "-" (defaulted config) = false
       /\ RegExp.test semverRegex (Some (defaulted config)) = false
       /\ defaulted config <> "0.0.0").
Proof.
  rewrite getClientVersion_inner. unfold _getClientVersion.
  fold (defaulted config). set (cv := defaulted config).
  destruct (JsString.truthy _).
  { split; [discriminate | intros (_ & _ & H & _); discriminate H]. }
  destruct (JsString.includes "-" cv) eqn:Hh.
  - destruct (splitClientVersion_suffixed _ Hh) as (v & x & ->).
    cbn [isSome negb andb orb]. split; [|intros (_ & _ & _ & H & _); discriminate H].
    unfold fallbackPath. destruct (isSome _); [discriminate|].
    destruct (resolveFromEngine_cases w cv)
      as (v' & sfx & _ & [[_ ->]|[_ [->| [u ->]]]]); try discriminate.
    simpl.
    destruct (handleResponse_cases (request w u {| opt_clientVersion := cv |}))
      as [[_ [m ->]]|[(_ & _ & ->)|(_ & payload & _ & ->)]]; try discriminate.
    destruct payload as [| | | | | |fields]; try discriminate.
    simpl. destruct (lookup "version" fields); discriminate.
  - rewrite (splitClientVersion_plain _ Hh). cbn [isSome negb andb orb].
    destruct (RegExp.test semverRegex (Some cv)).
    { split; [discriminate | intros (_ & _ & _ & _ & H & _); discriminate H]. }
    destruct (String.eqb_spec cv "0.0.0") as [E|N].
    + split; [|intros (_ & _ & _ & _ & _ & H); contradiction].
      unfold fallbackPath. destruct (isSome _); [discriminate|].
      destruct (resolveFromEngine_cases w cv)
        as (v' & sfx & _ & [[_ ->]|[_ [->| [u ->]]]]); try discriminate.
      simpl.
      destruct (handleResponse_cases (request w u {| opt_clientVersion := cv |}))
        as [[_ [m ->]]|[(_ & _ & ->)|(_ & payload & _ & ->)]]; try discriminate.
      destruct payload as [| | | | | |fields]; try discriminate.
      simpl. destruct (lookup "version" fields); discriminate.
    + simpl. split.
      * intros H. injection H as <- <-. repeat split; auto.
      * intros (-> & -> & _). reflexivity.
Qed.

(** X8.  A forced-version variable set to the empty string changes nothing:
    the run is the one of the same world without the variable. *)
Theorem empty_override_is_unset (w : World) (config : EngineConfig) :
  process_env w "PRISMA_CLIENT_DATA_PROXY_CLIENT_VERSION" = Some "" ->
  getClientVersion w config = getClientVersion (withoutOverride w) config.
Proof.
  intros Hov. rewrite !getClientVersion_inner. unfold _getClientVersion.
  rewrite Hov. reflexivity.
Qed.

Lemma empty_override_is_unset_witness :
  getClientVersion (Sample.forced "") (Sample.config "1.2.3-dev.7")
  = getClientVersion (withoutOverride (Sample.forced "")) (Sample.config "1.2.3-dev.7").
Proof.
  apply (empty_override_is_unset (Sample.forced "") (Sample.config "1.2.3-dev.7")).
  reflexivity.
Defined.

End Dispatch.

(** ** The engines version on the fallback path *)

Section EnginesVersion.

Lemma strictEq_true (x : option string) (lit : string) :
  JsString.strictEq x lit = true <-> x = Some lit.
Proof.
  destruct x as [s|]; simpl.
  - rewrite String.eqb_eq. split; [now intros -> | now intros [= ->]].
  - split; discriminate.
Qed.

Lemma encodeURI_plain_range (x : string) :
  unescaped_text x = true ->
  URI.encodeURI ("https://unpkg.com/prisma@<=" ++ x)
  = Some ("https://unpkg.com/prisma@%3C=" ++ x).
Proof.
  intros H. rewrite encodeURI_range_prefix.
  rewrite <- (append_nil_r x) at 1. rewrite (encodeURI_unescaped x "" H).
  simpl. now rewrite append_nil_r.
Qed.

(** X9.  On the fallback path outside the test mode, the resolver answers
    5.0.0 without any call exactly when the first two components of the
    engines version, taken before its first hyphen, are 4 and 17. *)
Theorem pinned_iff (w : World) (cv v : string) (sfx : list string) :
  JsString.truthy (process_env w "PRISMA_CLIENT_DATA_PROXY_CLIENT_VERSION") = false ->
  process_env w "TEST_DATA_PROXY" = None ->
  JsString.includes "-" cv = true \/ cv = "0.0.0" ->
  JsString.split "-" (engines_version w) = v :: sfx ->
  getClientVersion w {| clientVersion := Some cv |}
  = {| calls := []; outcome := inr (VString "5.0.0") |}
  <-> item 0 (JsString.split "." v) = Some "4"
      /\ item 1 (JsString.split "." v) = Some "17".
Proof.
  intros Hov Htest Hroute Hs. rewrite getClientVersion_inner.
  rewrite (fallback_route w cv Hov Hroute). unfold fallbackPath.
  rewrite Htest. cbn [isSome].
  destruct (resolveFromEngine_cases w cv) as (v' & sfx' & Hs' & Hcases).
  rewrite Hs in Hs'. injection Hs' as <- <-.
  destruct Hcases as [[Hpin ->]|[Hpin [->| [u ->]]]].
  - apply andb_true_iff in Hpin as [H4 H17].
    apply strictEq_true in H4, H17. split; auto.
  - split; [discriminate|]. intros [H4 H17].
    rewrite H4, H17 in Hpin. discriminate Hpin.
  - split; [discriminate|]. intros [H4 H17].
    rewrite H4, H17 in Hpin. discriminate Hpin.
Qed.

Lemma pinned_iff_witness :
  getClientVersion Sample.pinned {| clientVersion := Some "0.0.0" |}
  = {| calls := []; outcome := inr (VString "5.0.0") |}
  <-> item 0 (JsString.split "." "4.17.2") = Some "4"
      /\ item 1 (JsString.split "." "4.17.2") = Some "17".
Proof.
  apply (pinned_iff Sample.pinned "0.0.0" "4.17.2" []); try reflexivity.
  right. reflexivity.
Defined.

(** X10.  The address asked of the registry never depends on the client
    version: two client versions that take the fallback path lead to the
    same addresses. *)
Theorem registry_address_ignores_client (w : World) (cv1 cv2 : string) :
  JsString.includes "-" cv1 = true \/ cv1 = "0.0.0" ->
  JsString.includes "-" cv2 = true \/ cv2 = "0.0.0" ->
  map url (calls (getClientVersion w {| clientVersion := Some cv1 |}))
  = map url (calls (getClientVersion w {| clientVersion := Some cv2 |})).
Proof.
  intros H1 H2. rewrite !getClientVersion_inner.
  destruct (JsString.truthy (process_env w "PRISMA_CLIENT_DATA_PROXY_CLIENT_VERSION"))
    eqn:Hov.
  { unfold _getClientVersion. now rewrite Hov. }
  rewrite (fallback_route w cv1 Hov H1), (fallback_route w cv2 Hov H2).
  unfold fallbackPath. destruct (isSome _); [reflexivity|].
  destruct (split_head "-" (engines_version w)) as (v & sfx & Hs).
  destruct (JsString.strictEq (item 0 (JsString.split "." v)) "4"
            && JsString.strictEq (item 1 (JsString.split "." v)) "17") eqn:Hpin.
  - unfold resolveFromEngine. rewrite Hs.
    change (item 0 (v :: sfx)) with (Some v). cbv beta iota zeta.
    now rewrite Hpin.
  - destruct (URI.encodeURI ("https://unpkg.com/prisma@"
                   ++ ("<=" ++ JsString.toString (item 0 (JsString.split "." v)) ++ "."
                         ++ JsString.toString (item 1 (JsString.split "." v)) ++ "."
                         ++ JsString.toString (item 2 (JsString.split "." v)))
                   ++ "/package.json")) as [u|] eqn:Hu.
    + now rewrite !(resolveFromEngine_request _ _ _ _ _ Hs Hpin Hu).
    + unfold resolveFromEngine. rewrite Hs.
      change (item 0 (v :: sfx)) with (Some v). cbv beta iota zeta.
      rewrite Hpin. unfold prismaPkgURL. rewrite Hu. reflexivity.
Qed.

Lemma registry_address_ignores_client_witness :
  map url (calls (getClientVersion Sample.published {| clientVersion := Some "1.2.3-dev.7" |}))
  = map url (calls (getClientVersion Sample.published {| clientVersion := Some "0.0.0" |})).
Proof.
  apply (registry_address_ignores_client Sample.published "1.2.3-dev.7" "0.0.0").
  - left. reflexivity.
  - right. reflexivity.
Defined.

(** X11.  Only the first three components of the engines version before
    its first hyphen count: two engines versions that agree on them give
    the same run, whatever their suffixes and further components. *)
Theorem engines_version_up_to_three (w : World) (config : EngineConfig)
    (e1 e2 v1 v2 : string) (sfx1 sfx2 : list string) :
  JsString.split "-" e1 = v1 :: sfx1 ->
  JsString.split "-" e2 = v2 :: sfx2 ->
  item 0 (JsString.split "." v1) = item 0 (JsString.split "." v2) ->
  item 1 (JsString.split "." v1) = item 1 (JsString.split "." v2) ->
  item 2 (JsString.split "." v1) = item 2 (JsString.split "." v2) ->
  getClientVersion (withEngine e1 w) config = getClientVersion (withEngine e2 w) config.
Proof.
  intros Hs1 Hs2 H0 H1 H2. rewrite !getClientVersion_inner.
  unfold _getClientVersion. cbn [process_env withEngine].
  destruct (JsString.truthy _); [reflexivity|].
  destruct (splitClientVersion _) as [version suffix].
  destruct (negb (isSome suffix) && RegExp.test semverRegex version); [reflexivity|].
  destruct (isSome suffix || String.eqb _ "0.0.0"); [|reflexivity].
  unfold fallbackPath. cbn [process_env withEngine].
  destruct (isSome _); [reflexivity|].
  unfold resolveFromEngine. cbn [engines_version withEngine].
  rewrite Hs1, Hs2.
  change (item 0 (v1 :: sfx1)) with (Some v1).
  change (item 0 (v2 :: sfx2)) with (Some v2). cbv beta iota zeta.
  rewrite H0, H1, H2. reflexivity.
Qed.

Lemma engines_version_up_to_three_witness :
  getClientVersion (withEngine "5.1.0-28.6a3747c3" Sample.published) (Sample.config "0.0.0")
  = getClientVersion (withEngine "5.1.0.9" Sample.published) (Sample.config "0.0.0").
Proof.
  apply (engines_version_up_to_three Sample.published (Sample.config "0.0.0")
           "5.1.0-28.6a3747c3" "5.1.0.9" "5.1.0" "5.1.0.9" ["28.6a3747c3"] []);
    reflexivity.
Defined.

(** X12.  An engines version with two numeric components only has no patch:
    the range asked of the registry then ends in the word undefined. *)
Theorem missing_patch_is_undefined (w : World) (cv v major minor : string)
    (sfx : list string) :
  process_env w "PRISMA_CLIENT_DATA_PROXY_CLIENT_VERSION" = None ->
  process_env w "TEST_DATA_PROXY" = None ->
  JsString.includes "-" cv = true \/ cv = "0.0.0" ->
  JsString.split "-" (engines_version w) = v :: sfx ->
  JsString.split "." v = [major; minor] ->
  all_digits major = true -> all_digits minor = true ->
  ~ (major = "4" /\ minor = "17") ->
  calls (getClientVersion w {| clientVersion := Some cv |})
  = [ {| url := "https://unpkg.com/prisma@%3C=" ++ major ++ "." ++ minor
                  ++ ".undefined/package.json";
         options := {| opt_clientVersion := cv |} |} ].
Proof.
  intros Hov Htest Hroute Hs Hparts Hmajor Hminor Hpin.
  rewrite getClientVersion_inner.
  rewrite (fallback_route w cv (unset_is_falsy _ _ Hov) Hroute).
  unfold fallbackPath. rewrite Htest. cbn [isSome].
  rewrite (resolveFromEngine_request w cv v
             ("https://unpkg.com/prisma@%3C=" ++ major ++ "." ++ minor
                ++ ".undefined/package.json") sfx Hs); [reflexivity| |];
    rewrite Hparts; cbn [item nth_error].
  - cbn [JsString.strictEq]. destruct (String.eqb_spec major "4") as [->|]; [|reflexivity].
    destruct (String.eqb_spec minor "17") as [->|]; [|reflexivity].
    exfalso. apply Hpin. split; reflexivity.
  - cbn [JsString.toString]. rewrite address_template.
    rewrite encodeURI_plain_range; [reflexivity|].
    rewrite !unescaped_text_app.
    rewrite (unescaped_digits _ Hmajor), (unescaped_digits _ Hminor).
    vm_compute. reflexivity.
Qed.

Lemma missing_patch_is_undefined_witness :
  calls (getClientVersion (withEngine "4.18" Sample.published) (Sample.config "0.0.0"))
  = [ {| url := "https://unpkg.com/prisma@%3C=4.18.undefined/package.json";
         options := {| opt_clientVersion := "0.0.0" |} |} ].
Proof.
  apply (missing_patch_is_undefined (withEngine "4.18" Sample.published) "0.0.0"
           "4.18" "4" "18" []); try reflexivity.
  - right. reflexivity.
  - intros [_ H]. discriminate H.
Defined.

End EnginesVersion.

(** ** The address of a registry entry *)

Section RegistryAddress.

Import URI.

Lemma length_append (a b : string) :
  String.length (a ++ b) = String.length a + String.length b.
Proof.
  induction a as [|c a IH]; simpl; [reflexivity | now rewrite IH].
Qed.

Lemma append_cancel_r (a b c : string) : a ++ c = b ++ c -> a = b.
Proof.
  revert b. induction a as [|x a IH]; intros [|y b] H; simpl in H.
  - reflexivity.
  - apply (f_equal String.length) in H. simpl in H. rewrite length_append in H. lia.
  - apply (f_equal String.length) in H. simpl in H. rewrite length_append in H. lia.
  - injection H as -> H. now rewrite (IH b H).
Qed.

(** The encoding of a text followed by a text that starts with an ASCII
    character is made of the two encodings. *)
Lemma encodeURI_app (a : string) (d : ascii) (b : string) :
  (N_of_ascii d < 128)%N ->
  encodeURI (a ++ String d b)
  = match encodeURI a with
    | Some x => option_map (append x) (encodeURI (String d b))
    | None => None
    end.
Proof.
  intros Hd. induction a as [|c a IH].
  - change ("" ++ String d b) with (String d b).
    set (e := encodeURI (String d b)). change (encodeURI "") with (Some "").
    destruct e; reflexivity.
  - change (String c a ++ String d b) with (String c (a ++ String d b)).
    change (encodeURI (String c (a ++ String d b)))
      with (if lone_surrogate c (a ++ String d b) then None
            else option_map (append (if unescaped c then String c "" else percent c))
                            (encodeURI (a ++ String d b))).
    change (encodeURI (String c a))
      with (if lone_surrogate c a then None
            else option_map (append (if unescaped c then String c "" else percent c))
                            (encodeURI a)).
    assert (Hs : lone_surrogate c (a ++ String d b) = lone_surrogate c a).
    { unfold lone_surrogate. destruct a as [|e a']; simpl; [|reflexivity].
      replace (160 <=? N_of_ascii d)%N with false; [reflexivity|].
      symmetry. apply N.leb_gt. lia. }
    rewrite Hs, IH. set (e := encodeURI (String d b)).
    destruct (lone_surrogate c a); [reflexivity|].
    destruct (encodeURI a) as [x|]; [|reflexivity].
    destruct e as [y|]; [|reflexivity].
    simpl. now rewrite append_assoc.
Qed.

(** X13.  The address is the fixed head [https://unpkg.com/prisma@], then
    the version as [encodeURI] writes it, then the fixed tail
    [/package.json]; building it fails exactly when [encodeURI] fails on the
    version itself. *)
Theorem prismaPkgURL_shape (version : string) :
  prismaPkgURL version
  = match encodeURI version with
    | Some encoded => ret ("https://unpkg.com/prisma@" ++ encoded ++ "/package.json")
    | None => throw URIError
    end.
Proof.
  unfold prismaPkgURL.
  rewrite (encodeURI_unescaped "https://unpkg.com/prisma@" (version ++ "/package.json"))
    by (vm_compute; reflexivity).
  change (version ++ "/package.json") with (version ++ String "/" "package.json").
  rewrite encodeURI_app by (vm_compute; reflexivity).
  destruct (encodeURI version) as [encoded|]; [|reflexivity].
  replace (encodeURI (String "/" "package.json")) with (Some "/package.json")
    by (vm_compute; reflexivity).
  reflexivity.
Qed.

Lemma hexval_hexdigit (n : N) : (n < 16)%N -> JSON.hexval (hexdigit n) = Some n.
Proof.
  intros H.
  assert (A : Forall (fun k => JSON.hexval (hexdigit k) = Some k)
                     (map N.of_nat (seq 0 16))).
  { cbn [seq map]. repeat constructor. }
  rewrite Forall_forall in A. apply A.
  rewrite <- (N2Nat.id n). apply in_map. apply in_seq. lia.
Qed.

Lemma percent_injective (c d : ascii) : percent c = percent d -> c = d.
Proof.
  unfold percent. intros H. injection H as H1 H2.
  assert (Bc : (N_of_ascii c < 256)%N) by apply N_ascii_bounded.
  assert (Bd : (N_of_ascii d < 256)%N) by apply N_ascii_bounded.
  apply (f_equal JSON.hexval) in H1, H2.
  rewrite !hexval_hexdigit in H1, H2
    by (try (apply N.Div0.div_lt_upper_bound; lia); apply N.mod_upper_bound; lia).
  injection H1 as H1. injection H2 as H2.
  assert (E : N_of_ascii c = N_of_ascii d).
  { rewrite (N.div_mod (N_of_ascii c) 16), (N.div_mod (N_of_ascii d) 16) by lia.
    now rewrite H1, H2. }
  rewrite <- (ascii_N_embedding c), <- (ascii_N_embedding d). now rewrite E.
Qed.

(** The encoding of one character: itself, or a percent sign and two
    digits. *)
Lemma encoded_char_injective (c d : ascii) (x y : string) :
  (if unescaped c then String c "" else percent c) ++ x
  = (if unescaped d then String d "" else percent d) ++ y ->
  c = d /\ x = y.
Proof.
  destruct (unescaped c) eqn:Hc, (unescaped d) eqn:Hd; simpl; intros H.
  - now injection H as -> ->.
  - injection H as -> _. vm_compute in Hc. discriminate Hc.
  - injection H as <- _. vm_compute in Hd. discriminate Hd.
  - injection H as H1 H2 ->. split; [|reflexivity].
    apply percent_injective. unfold percent. now rewrite H1, H2.
Qed.

Lemma encodeURI_injective (a : string) :
  forall b x, encodeURI a = Some x -> encodeURI b = Some x -> a = b.
Proof.
  induction a as [|c a IH]; intros [|d b] x Ha Hb; cbn [encodeURI] in Ha, Hb.
  - reflexivity.
  - injection Ha as <-. destruct (lone_surrogate d b); [discriminate|].
    destruct (encodeURI b); [|discriminate]. simpl in Hb.
    destruct (unescaped d); discriminate.
  - injection Hb as <-. destruct (lone_surrogate c a); [discriminate|].
    destruct (encodeURI a); [|discriminate]. simpl in Ha.
    destruct (unescaped c); discriminate.
  - destruct (lone_surrogate c a); [discriminate|].
    destruct (lone_surrogate d b); [discriminate|].
    destruct (encodeURI a) as [xa|] eqn:Ea; [|discriminate].
    destruct (encodeURI b) as [xb|] eqn:Eb; [|discriminate].
    simpl in Ha, Hb. injection Ha as Ha. injection Hb as Hb. rewrite <- Hb in Ha.
    apply encoded_char_injective in Ha as [-> ->].
    now rewrite (IH b xb eq_refl Eb).
Qed.

(** X14.  Two versions with the same address are the same version: no two
    ranges are confused by the encoding. *)
Theorem prismaPkgURL_injective (v1 v2 address : string) :
  prismaPkgURL v1 = ret address ->
  prismaPkgURL v2 = ret address ->
  v1 = v2.
Proof.
  unfold prismaPkgURL. intros H1 H2.
  destruct (encodeURI ("https://unpkg.com/prisma@" ++ v1 ++ "/package.json"))
    as [u1|] eqn:E1; [|discriminate].
  destruct (encodeURI ("https://unpkg.com/prisma@" ++ v2 ++ "/package.json"))
    as [u2|] eqn:E2; [|discriminate].
  injection H1 as ->. injection H2 as ->.
  pose proof (encodeURI_injective _ _ _ E1 E2) as H.
  simpl in H. injection H as H. now apply append_cancel_r in H.
Qed.

Lemma prismaPkgURL_injective_witness : "<=4.18.0" = "<=4.18.0".
Proof.
  apply (prismaPkgURL_injective "<=4.18.0" "<=4.18.0"
           "https://unpkg.com/prisma@%3C=4.18.0/package.json"); reflexivity.
Defined.

End RegistryAddress.

(** ** What the resolver returns *)

Section Returns.

Import JSON.

Lemma complete_pstate_defined (v : value) (stack : list frame) (st : pstate) :
  value_defined v -> Forall frame_defined stack ->
  complete v stack = Some st -> pstate_defined st.
Proof.
  intros Hv Hstack H.
  destruct stack as [|[items|fields|fields key] below]; simpl in H;
    try discriminate; injection H as <-; split; simpl; auto.
  - inversion Hstack; subst. constructor; [exact I | assumption].
  - inversion Hstack as [|f fs Hf Hbelow]; subst. constructor; [|assumption].
    simpl in Hf |- *. constructor; [exact (proj1 Hv) | exact Hf].
Qed.

Lemma begin_value_pstate_defined (t : token) (stack : list frame) (st : pstate) :
  Forall frame_defined stack -> begin_value t stack = Some st -> pstate_defined st.
Proof.
  intros Hstack H. destruct t; simpl in H; try discriminate;
    try (injection H as <-; split; simpl; [constructor; [constructor | assumption] | exact I]);
    (eapply complete_pstate_defined; [|exact Hstack|exact H]; split; [discriminate | exact I]).
Qed.

Lemma close_pstate_defined (stack : list frame) (st : pstate) :
  Forall frame_defined stack ->
  close_array stack = Some st \/ close_object stack = Some st ->
  pstate_defined st.
Proof.
  intros Hstack [H|H]; destruct stack as [|[items|fields|fields key] below];
    simpl in H; try discriminate; inversion Hstack as [|f fs Hf Hbelow]; subst.
  - eapply complete_pstate_defined; [|exact Hbelow|exact H]. split; [discriminate | exact I].
  - eapply complete_pstate_defined; [|exact Hbelow|exact H]. split; [discriminate|].
    simpl in Hf |- *. unfold members_defined. now apply Forall_rev.
Qed.

Lemma pstep_pstate_defined (st st' : pstate) (t : token) :
  pstate_defined st -> pstep st t = Some st' -> pstate_defined st'.
Proof.
  destruct st as [stack e]. intros [Hstack _]. simpl in Hstack.
  destruct e; simpl; intros H.
  - eapply begin_value_pstate_defined; eauto.
  - destruct t; try (eapply begin_value_pstate_defined; eassumption).
    eapply close_pstate_defined; eauto.
  - destruct t; try discriminate.
    + eapply close_pstate_defined; eauto.
    + injection H as <-. now split.
  - destruct t; try discriminate. injection H as <-. now split.
  - destruct t; try discriminate.
    destruct stack as [|[items|fields|fields k] below]; try discriminate.
    injection H as <-. split; [|exact I]. simpl.
    inversion Hstack; subst. now constructor.
  - destruct t; try discriminate;
      try (eapply close_pstate_defined; eauto; fail).
    destruct stack as [|[items|fields|fields k] below]; try discriminate;
      injection H as <-; now split.
  - discriminate.
Qed.

Lemma prun_value_defined (ts : list token) :
  forall st v, pstate_defined st -> prun st ts = Some v -> value_defined v.
Proof.
  induction ts as [|t ts IH]; intros st v Hst H; simpl in H.
  - destruct st as [[|f stack] e]; try discriminate.
    destruct e; try discriminate. injection H as <-. exact (proj2 Hst).
  - destruct (pstep st t) as [st'|] eqn:E; [|discriminate].
    eapply IH; [|exact H]. eapply pstep_pstate_defined; eauto.
Qed.

(** No member of a parsed object is [undefined]. *)
Lemma parse_value_defined (text : string) (v : value) :
  parse text = Some v -> value_defined v.
Proof.
  unfold parse. destruct (lex MDefault text) as [ts|]; [|discriminate].
  apply prun_value_defined. split; [constructor | exact I].
Qed.

Lemma lookup_member (key : string) (fields : list (string * value)) (x : value) :
  lookup key fields = Some x -> exists k, In (k, x) fields.
Proof.
  induction fields as [|[k v] rest IH]; simpl; intros H; [discriminate|].
  destruct (lookup key rest) as [v'|].
  - injection H as ->. destruct (IH eq_refl) as (k' & Hin). eauto.
  - destruct (String.eqb k key); [|discriminate]. injection H as ->. eauto.
Qed.

(** X15.  The resolver returns [undefined] only after a call answered by a
    successful response whose body parses to a value other than [null]
    without a [version] member: a member that is there is never lost. *)
Theorem undefined_only_when_missing (w : World) (config : EngineConfig) :
  outcome (getClientVersion w config) = inr VUndefined ->
  exists c payload,
    calls (getClientVersion w config) = [c]
    /\ ok (request w (url c) (options c)) = true
    /\ JSON.parse (text (request w (url c) (options c))) = Some payload
    /\ payload <> VNull
    /\ hasVersionField payload = false.
Proof.
  destruct (run_cases w config) as [[s ->]|[->|[->|[u ->]]]]; simpl;
    try discriminate.
  intros H.
  destruct (handleResponse_cases (request w u {| opt_clientVersion := defaulted config |}))
    as [[_ [m E]]|[(_ & _ & E)|(Hok & payload & Hp & E)]];
    rewrite E in H; try discriminate.
  eexists. exists payload. split; [reflexivity|]. simpl.
  split; [exact Hok|]. split; [exact Hp|].
  destruct (parse_value_defined _ _ Hp) as [_ Hmembers].
  destruct payload as [| | | | | |fields]; try discriminate;
    try (split; [discriminate | reflexivity]).
  split; [discriminate|]. simpl in H |- *.
  destruct (lookup "version" fields) as [x|] eqn:El; [|reflexivity].
  injection H as ->. apply lookup_member in El as (k & Hin).
  unfold members_defined in Hmembers. rewrite Forall_forall in Hmembers.
  now destruct (Hmembers _ Hin).
Qed.

Lemma undefined_only_when_missing_witness :
  exists c payload,
    calls (getClientVersion Sample.answers_empty_object (Sample.config "0.0.0")) = [c]
    /\ ok (request Sample.answers_empty_object (url c) (options c)) = true
    /\ JSON.parse (text (request Sample.answers_empty_object (url c) (options c)))
       = Some payload
    /\ payload <> VNull
    /\ hasVersionField payload = false.
Proof.
  apply (undefined_only_when_missing Sample.answers_empty_object (Sample.config "0.0.0")).
  reflexivity.
Defined.

(** X16.  What [semverRegex.test] accepts: exactly the strings
    major.minor.patch whose major is a numeral that starts with a digit
    from 1 to 9 and whose minor and patch are non-empty numerals; a missing
    version, tested as the word undefined, is not accepted. *)
Theorem semverRegex_test_accepts (x : option string) :
  RegExp.test semverRegex x = true
  <-> exists d ds minor patch,
        x = Some (String d ds ++ "." ++ minor ++ "." ++ patch)
        /\ RegExp.in_range "1" "9" d = true /\ all_digits ds = true
        /\ (all_digits minor = true /\ minor <> "")
        /\ (all_digits patch = true /\ patch <> "").
Proof.
  destruct x as [s|].
  - unfold RegExp.test. simpl JsString.toString. rewrite semver_shape. split.
    + intros (d & ds & minor & patch & -> & H). now exists d, ds, minor, patch.
    + intros (d & ds & minor & patch & E & H). injection E as ->.
      now exists d, ds, minor, patch.
  - split; [discriminate|]. intros (d & ds & minor & patch & E & _). discriminate E.
Qed.

End Returns.

(** ** The parts of the client version *)

Section Parts.




End Parts.
